(** * The MySQL query generator of Sequelize, embedded in Rocq

    Source: [lib/dialects/mysql/query-generator.js].

    The generator is a collection of string-building methods.  Strings are
    modelled by [string] (code units below 256), JavaScript values by the
    inductive [value], plain objects whose enumeration order matters
    (attribute maps, conditions) by association lists in enumeration order,
    and the option bags that the generator mutates by [gmap string value].
    A [TypeError] raised by the source is the result [None]. *)

From Stdlib Require Import ZArith Ascii DecimalString.
From stdpp Require Import base option list strings gmap.

(** ** JavaScript strings *)

Module JsString.

(** [s.indexOf(pat) === 0] *)
Fixpoint startsWith (pat s : string) : bool :=
  match pat, s with
  | EmptyString, _ => true
  | String _ _, EmptyString => false
  | String a p, String b t => if Ascii.eqb a b then startsWith p t else false
  end.

(** [s.indexOf(pat) !== -1], lodash's [_.includes] on a string, and the
    truthiness of [s.match(/pat/)] for a pattern without metacharacters. *)
Fixpoint includes (s pat : string) : bool :=
  startsWith pat s ||
  match s with
  | EmptyString => false
  | String _ t => includes t pat
  end.

Fixpoint drop (n : nat) (s : string) : string :=
  match n, s with
  | O, _ => s
  | S _, EmptyString => EmptyString
  | S n', String _ t => drop n' t
  end.

(** [s.replace(/pat/, rep)] for a literal, non-empty, non-global pattern:
    only the first occurrence is replaced. *)
Fixpoint replace_first (pat rep s : string) : string :=
  if startsWith pat s then rep +:+ drop (String.length pat) s
  else match s with
       | EmptyString => EmptyString
       | String c t => String c (replace_first pat rep t)
       end.

(** [s.split(sep)[0]]: the text before the first occurrence of [sep]. *)
Fixpoint before_first (sep s : string) : string :=
  if startsWith sep s then EmptyString
  else match s with
       | EmptyString => EmptyString
       | String c t => String c (before_first sep t)
       end.

(** [s.split(c)] for a one-character separator. *)
Fixpoint split_char (c : ascii) (s : string) : list string :=
  match s with
  | EmptyString => [EmptyString]
  | String a t =>
      if Ascii.eqb a c then EmptyString :: split_char c t
      else match split_char c t with
           | [] => [String a EmptyString]
           | h :: r => String a h :: r
           end
  end.

(** [l.join(sep)] on an array of strings. *)
Fixpoint join (sep : string) (l : list string) : string :=
  match l with
  | [] => EmptyString
  | [x] => x
  | x :: r => x +:+ sep +:+ join sep r
  end.

(** The line terminators that [.] refuses in a regular expression. *)
Definition is_line_terminator (c : ascii) : bool :=
  Ascii.eqb c "010" || Ascii.eqb c "013".

Fixpoint single_line (s : string) : bool :=
  match s with
  | EmptyString => true
  | String c t => negb (is_line_terminator c) && single_line t
  end.

(** White space removed by [String.prototype.trim]. *)
Definition is_white_space (c : ascii) : bool :=
  Ascii.eqb c "009" || Ascii.eqb c "010" || Ascii.eqb c "011" ||
  Ascii.eqb c "012" || Ascii.eqb c "013" || Ascii.eqb c " " ||
  Ascii.eqb c "160".

Fixpoint trimStart (s : string) : string :=
  match s with
  | EmptyString => EmptyString
  | String c t => if is_white_space c then trimStart t else s
  end.

Fixpoint trimEnd (s : string) : string :=
  match s with
  | EmptyString => EmptyString
  | String c t =>
      match trimEnd t with
      | EmptyString => if is_white_space c then EmptyString
                       else String c EmptyString
      | t' => String c t'
      end
  end.

Definition trim (s : string) : string := trimEnd (trimStart s).

(** The match of the anchored pattern "one character or more, a space,
    REFERENCES, any characters" used by [createTableQuery]: the two groups
    [(m1, m2)].  [last_references] splits at the last occurrence of
    [" REFERENCES"] (the first group is greedy); the pattern is anchored at
    both ends and the dot refuses line terminators, so the subject must be a
    single line, and the first group needs one character or more. *)
Fixpoint last_references (s : string) : option (string * string) :=
  match s with
  | EmptyString => None
  | String c t =>
      match last_references t with
      | Some (a, b) => Some (String c a, b)
      | None => if startsWith " REFERENCES" s then Some (EmptyString, t)
                else None
      end
  end.

Definition match_references (s : string) : option (string * string) :=
  if single_line s then
    match last_references s with
    | Some (String c a, b) => Some (String c a, b)
    | _ => None
    end
  else None.

(** One attempt, at the head of [s], of the pattern of [changeColumnQuery]
    (a lazy run of one character or more with the lookahead REFERENCES):
    the run takes one character that is no line terminator, then as few
    more as possible until [REFERENCES] follows; the result is what follows
    the match. *)
Fixpoint lazy_until_references (s : string) : option string :=
  match s with
  | EmptyString => None
  | String c t =>
      if is_line_terminator c then None
      else if startsWith "REFERENCES" t then Some t
      else lazy_until_references t
  end.

(** The replacement of that pattern by the empty string: the leftmost
    match is removed. *)
Fixpoint strip_before_references (s : string) : string :=
  match lazy_until_references s with
  | Some rest => rest
  | None => match s with
            | EmptyString => EmptyString
            | String c t => String c (strip_before_references t)
            end
  end.

Definition is_empty (s : string) : bool :=
  match s with EmptyString => true | _ => false end.

End JsString.

(** ** JavaScript numbers

    [Number::toString] on integers.  An integer below 2^53 prints as its
    decimal numeral.  From there on a number prints with the shortest digits
    that read back as the same double, followed by zeros, and from 10^21 on
    in exponent form. *)

Module JsNumber.

Local Open Scope Z_scope.

(** The decimal numeral of an integer. *)
Definition decimal (n : Z) : string := NilZero.string_of_int (Z.to_int n).

(** The Number value that an integer numeral [x > 0] denotes: the nearest
    double, ties to the even significand.  Integers up to 2^53 are exact. *)
Definition nearest_double (x : Z) : Z :=
  let p := Z.log2 x in
  if p <? 53 then x
  else
    let ulp := 2 ^ (p - 52) in
    let q := x / ulp in
    let r := x mod ulp in
    let half := ulp / 2 in
    if r <? half then q * ulp
    else if half <? r then (q + 1) * ulp
    else if Z.even q then q * ulp
    else (q + 1) * ulp.

(** Whether the integer [c] reads back as the double [x >= 2^53]: it lies
    between the midpoints to the neighbours of [x], the midpoints included
    when the significand of [x] is even.  Everything is scaled by 4. *)
Definition reads_back (x c : Z) : bool :=
  let p := Z.log2 x in
  let ulp := 2 ^ (p - 52) in
  let hi := 4 * x + 2 * ulp in
  let lo := if x =? 2 ^ p then 4 * x - ulp else 4 * x - 2 * ulp in
  if Z.even (x / ulp) then (lo <=? 4 * c) && (4 * c <=? hi)
  else (lo <? 4 * c) && (4 * c <? hi).

(** The shortest digits [s] and the exponent [e] with [s * 10^e] reading
    back as [x], the closest to [x] among the shortest; [ks] lists the
    numbers of digits to try and [nd] is the number of digits of [x]. *)
Fixpoint shortest (x nd : Z) (ks : list Z) : Z * Z :=
  match ks with
  | [] => (x, 0)
  | k :: rest =>
      let e := nd - k in
      if e <=? 0 then (x, 0)
      else
        let pw := 10 ^ e in
        let s := x / pw in
        let lo := s * pw in
        let hi := lo + pw in
        match reads_back x lo, reads_back x hi with
        | true, true =>
            if x - lo <? hi - x then (s, e)
            else if hi - x <? x - lo then (s + 1, e)
            else if Z.even s then (s, e) else (s + 1, e)
        | true, false => (s, e)
        | false, true => (s + 1, e)
        | false, false => shortest x nd rest
        end
  end.

(** Trailing zeros go from the digits to the exponent. *)
Fixpoint strip_zeros (fuel : nat) (s e : Z) : Z * Z :=
  match fuel with
  | O => (s, e)
  | S fuel' =>
      if (s mod 10 =? 0) && negb (s =? 0) then strip_zeros fuel' (s / 10) (e + 1)
      else (s, e)
  end.

Fixpoint zeros (n : nat) : string :=
  match n with
  | O => EmptyString
  | S n' => String "0" (zeros n')
  end.

(** [Number::toString] on the digits [s] and the exponent [e]: the digits
    and [e] zeros when there are at most 21 digits in all, the exponent
    form otherwise. *)
Definition format (s e : Z) : string :=
  let ds := decimal s in
  let n := Z.of_nat (String.length ds) + e in
  if n <=? 21 then ds +:+ zeros (Z.to_nat e)
  else
    match ds with
    | String d EmptyString => String d EmptyString +:+ "e+" +:+ decimal (n - 1)
    | String d rest =>
        String d EmptyString +:+ "." +:+ rest +:+ "e+" +:+ decimal (n - 1)
    | EmptyString => EmptyString
    end.

Definition positive_toString (x : Z) : string :=
  if x <? 9007199254740992 then decimal x
  else
    let d := nearest_double x in
    if 2 ^ 1024 <=? d then "Infinity"
    else
      let nd := Z.of_nat (String.length (decimal d)) in
      let '(s, e) := shortest d nd [1; 2; 3; 4; 5; 6; 7; 8; 9; 10; 11; 12; 13;
                                    14; 15; 16; 17] in
      let '(s, e) := strip_zeros 400 s e in
      format s e.

(** [Number::toString] of the number that the integer numeral denotes. *)
Definition to_string (n : Z) : string :=
  if n =? 0 then "0"
  else if n <? 0 then "-" +:+ positive_toString (- n)
  else positive_toString n.

End JsNumber.

(** ** JavaScript values *)

(** Numbers are restricted to integers. *)
#[warnings="-register-all"]
Inductive value : Type :=
| VUndefined
| VNull
| VBool (b : bool)
| VNum (n : Z)
| VStr (s : string)
| VArr (elems : list value)
| VObj (props : list (string * value)).

Definition truthy (v : value) : bool :=
  match v with
  | VUndefined | VNull => false
  | VBool b => b
  | VNum n => negb (Z.eqb n 0)
  | VStr s => negb (JsString.is_empty s)
  | VArr _ | VObj _ => true
  end.

(** [_.isPlainObject] *)
Definition isPlainObject (v : value) : bool :=
  match v with VObj _ => true | _ => false end.

(** [_.isUndefined] *)
Definition isUndefined (v : value) : bool :=
  match v with VUndefined => true | _ => false end.

(** The string conversion of a number. *)
Definition number_toString (n : Z) : string := JsNumber.to_string n.

(** The string conversion applied by [+] with a string operand. *)
Fixpoint toString (v : value) : string :=
  match v with
  | VUndefined => "undefined"
  | VNull => "null"
  | VBool true => "true"
  | VBool false => "false"
  | VNum n => number_toString n
  | VStr s => s
  | VArr l =>
      JsString.join ","
        ((fix elems (l : list value) : list string :=
            match l with
            | [] => []
            | VUndefined :: r | VNull :: r => EmptyString :: elems r
            | x :: r => toString x :: elems r
            end) l)
  | VObj _ => "[object Object]"
  end.

(** A value interpolated by a lodash template, [<%= x %>]: [null] and
    [undefined] print as the empty string. *)
Definition interpolate (v : value) : string :=
  match v with
  | VUndefined | VNull => EmptyString
  | _ => toString v
  end.

(** Property read and assignment on a plain object held as the list of its
    own enumerable properties in enumeration order. *)
Fixpoint obj_get {A} (o : list (string * A)) (k : string) : option A :=
  match o with
  | [] => None
  | (k', v) :: r => if String.eqb k' k then Some v else obj_get r k
  end.

Fixpoint obj_set {A} (o : list (string * A)) (k : string) (v : A)
  : list (string * A) :=
  match o with
  | [] => [(k, v)]
  | (k', v') :: r =>
      if String.eqb k' k then (k', v) :: r else (k', v') :: obj_set r k v
  end.

(** [o.k] where an absent property reads as [undefined]. *)
Definition prop (o : list (string * value)) (k : string) : value :=
  default VUndefined (obj_get o k).

(** ** Plain objects that the generator fills

    An object created by [{}] has [Object.prototype] for prototype, and its
    own properties enumerate with the array indices first, in ascending
    order, and the other names after them, in the order of their creation.
    [obj_set] above agrees with [assign] for a name that is neither an array
    index nor [__proto__]. *)

Module JsObject.

Definition digit (c : ascii) : option N :=
  let n := N_of_ascii c in
  if ((48 <=? n) && (n <=? 57))%N then Some (n - 48)%N else None.

Fixpoint numeral (s : string) (acc : N) : option N :=
  match s with
  | EmptyString => Some acc
  | String c t =>
      match digit c with
      | Some d => numeral t (10 * acc + d)%N
      | None => None
      end
  end.

(** The array index that a property name denotes: the name is the decimal
    numeral, without leading zero, of an integer below 2^32 - 1. *)
Definition array_index (k : string) : option N :=
  match k with
  | EmptyString => None
  | String c t =>
      if Ascii.eqb c "0" && negb (JsString.is_empty t) then None
      else
        match numeral k 0 with
        | Some n => if (n <? 4294967295)%N then Some n else None
        | None => None
        end
  end.

(** A new property named by the array index [n] goes before the first
    property that is no array index or a greater one. *)
Fixpoint insert_index {A} (n : N) (k : string) (v : A) (o : list (string * A))
  : list (string * A) :=
  match o with
  | [] => [(k, v)]
  | (k', v') :: r =>
      match array_index k' with
      | Some n' =>
          if (n' <? n)%N then (k', v') :: insert_index n k v r
          else (k, v) :: o
      | None => (k, v) :: o
      end
  end.

(** The value of an own property is replaced where it stands. *)
Fixpoint update {A} (o : list (string * A)) (k : string) (v : A)
  : list (string * A) :=
  match o with
  | [] => []
  | (k', v') :: r =>
      if String.eqb k' k then (k', v) :: r else (k', v') :: update r k v
  end.

(** [o[k] = v] on an object created by [{}], for a value [v] that is no
    object: the name [__proto__] reaches the setter of [Object.prototype],
    which ignores such a value, and stores nothing. *)
Definition assign {A} (o : list (string * A)) (k : string) (v : A)
  : list (string * A) :=
  if String.eqb k "__proto__" then o
  else
    match obj_get o k with
    | Some _ => update o k v
    | None =>
        match array_index k with
        | Some n => insert_index n k v o
        | None => o ++ [(k, v)]
        end
    end.

(** [o.hasOwnProperty(k)] on an object none of whose own values is a
    function: an own property named [hasOwnProperty] hides the method of
    [Object.prototype], and the call of a value that is no function raises
    ([None]). *)
Definition hasOwnProperty {A} (o : list (string * A)) (k : string)
  : option bool :=
  match obj_get o "hasOwnProperty" with
  | Some _ => None
  | None => Some (match obj_get o k with Some _ => true | None => false end)
  end.

(** The names of the members of [Object.prototype], which every plain
    object inherits. *)
Definition inherited (k : string) : bool :=
  bool_decide (k ∈ ["constructor"; "__defineGetter__"; "__defineSetter__";
                    "hasOwnProperty"; "__lookupGetter__"; "__lookupSetter__";
                    "isPrototypeOf"; "propertyIsEnumerable"; "toString";
                    "valueOf"; "__proto__"; "toLocaleString"]).

(** A name that an object keeps in the order of creation. *)
Definition ordinary (k : string) : bool :=
  negb (String.eqb k "__proto__") &&
  match array_index k with Some _ => false | None => true end.

End JsObject.

(** Induction on values: a property that holds of every value that is no
    plain object, and of a plain object whenever it holds of its members,
    holds of every value. *)

Section ValueInduction.

Variable P : value -> Prop.
Hypothesis P_scalar : forall v, isPlainObject v = false -> P v.
Hypothesis P_object :
  forall props, Forall (fun kv => P (snd kv)) props -> P (VObj props).

Fixpoint value_object_ind (v : value) : P v :=
  match v with
  | VObj props =>
      P_object props
        ((fix each (l : list (string * value))
            : Forall (fun kv => P (snd kv)) l :=
            match l with
            | [] => List.Forall_nil _
            | (k, x) :: r =>
                @List.Forall_cons _ (fun kv => P (snd kv)) (k, x) r
                  (value_object_ind x) (each r)
            end) props)
  | VUndefined => P_scalar VUndefined eq_refl
  | VNull => P_scalar VNull eq_refl
  | VBool b => P_scalar (VBool b) eq_refl
  | VNum n => P_scalar (VNum n) eq_refl
  | VStr s => P_scalar (VStr s) eq_refl
  | VArr l => P_scalar (VArr l) eq_refl
  end.

End ValueInduction.

(** ** Descriptors *)

(** A table name: a bare string or a [{schema, tableName}] pair. *)
Inductive tableName : Type :=
| TName (name : string)
| TSchema (schema name : string).

(** What [+] prints for a table name. *)
Definition tableName_toString (t : tableName) : string :=
  match t with
  | TName s => s
  | TSchema _ _ => "[object Object]"
  end.

Definition tableName_truthy (t : tableName) : bool :=
  match t with
  | TName s => negb (JsString.is_empty s)
  | TSchema _ _ => true
  end.

(** A column type: a raw SQL string, or a type object that renders itself
    given the escaper and carries the [_binary] flag. *)
Inductive columnType : Type :=
| RawType (sql : string)
| TypeObject (toSql : (value -> string) -> string) (_binary : bool).

Record references : Type := {
  ref_model : tableName;
  ref_key : option string
}.

(** The attribute descriptor read by [attributeToSQL]. *)
Record attribute : Type := {
  a_type : columnType;
  a_allowNull : value;
  a_autoIncrement : value;
  a_defaultValue : value;
  a_unique : value;
  a_primaryKey : value;
  a_after : option string;
  a_references : option references;
  a_onDelete : option string;
  a_onUpdate : option string;
  a_field : option string
}.

(** The first argument of [attributeToSQL]: a plain object or a bare type. *)
Inductive attributeArg : Type :=
| PlainAttribute (a : attribute)
| BareType (t : columnType).

Record attributeOptions : Type := {
  ao_context : option string;
  ao_foreignKey : option string
}.

(** A truthy optional string. *)
Definition some_truthy (o : option string) : option string :=
  match o with
  | Some s => if JsString.is_empty s then None else Some s
  | None => None
  end.

(** An entry of [options.uniqueKeys]. *)
Record uniqueKey : Type := {
  uk_singleField : bool;
  uk_fields : list string
}.

(** The options of [createTableQuery].  [ct_engine] and [ct_charset] are
    [None] when the caller's object has no such property, so that the defaults
    of the source apply; [ct_uniqueKeys] lists the entries with the index name
    under which lodash visits them ([None] for the numeric index of an
    array). *)
Record createTableOptions : Type := {
  ct_engine : option value;
  ct_charset : option value;
  ct_comment : value;
  ct_collate : value;
  ct_initialAutoIncrement : value;
  ct_uniqueKeys : option (list (option string * uniqueKey))
}.

(** [options || {}] for an absent argument. *)
Definition no_createTableOptions : createTableOptions :=
  {| ct_engine := None; ct_charset := None; ct_comment := VUndefined;
     ct_collate := VUndefined; ct_initialAutoIncrement := VUndefined;
     ct_uniqueKeys := None |}.

(** The type of a model attribute, as far as [instanceof DataTypes.JSON]
    sees it. *)
Inductive dataType : Type :=
| JSON_TYPE
| OTHER_TYPE (name : string).

Definition instanceof_JSON (t : option dataType) : bool :=
  match t with Some JSON_TYPE => true | _ => false end.

Record rawAttribute : Type := {
  ra_type : option dataType;
  ra_field : option string
}.

Record model : Type := {
  rawAttributes : option (list (string * rawAttribute));
  fieldRawAttributesMap : option (list (string * rawAttribute))
}.

(** [options.prefix]: a [Utils.Literal] or a table name. *)
Inductive prefixArg : Type :=
| PrefixLiteral (val : string)
| PrefixTable (t : tableName).

(** The options read by [whereItemQuery]. *)
Record whereOptions : Type := {
  o_field : option rawAttribute;
  o_model : option model;
  o_type : option dataType;
  o_prefix : option prefixArg;
  o_json : value
}.

(** [options || {}] for an absent argument. *)
Definition no_whereOptions : whereOptions :=
  {| o_field := None; o_model := None; o_type := None; o_prefix := None;
     o_json := VUndefined |}.

(** [_.assign({}, options, {json: false})] *)
Definition with_json_false (o : whereOptions) : whereOptions :=
  {| o_field := o_field o; o_model := o_model o; o_type := o_type o;
     o_prefix := o_prefix o; o_json := VBool false |}.

(** The key of a predicate: a column name or a [Utils.Literal]. *)
Inductive whereKey : Type :=
| KStr (name : string)
| KLiteral (val : string).

(** The second argument of [removeIndexQuery]. *)
Inductive indexArg : Type :=
| IndexName (name : string)
| IndexAttributes (attrs : list string).

(** ** Collaborators

    The generator extends the abstract query generator and calls into
    [Utils], [Dottie] and [JSON]; none of them is part of this file of the
    source, so the embedding takes them as an interface. *)
Record Collaborators : Type := {
  (** [Utils.addTicks(identifier, tickChar)] *)
  addTicks : string -> string -> string;
  (** [this.quoteTable] *)
  quoteTable : tableName -> string;
  (** [this.quoteIdentifiers] *)
  quoteIdentifiers : tableName -> string;
  (** [this.escape] *)
  escape : value -> string;
  (** [this.getWhereConditions]; an empty result is falsy *)
  getWhereConditions : value -> string;
  (** [this.insertQuery(tableName, insertValues, rawAttributes, options)] *)
  insertQuery : tableName -> list (string * value) ->
                list (string * rawAttribute) -> gmap string value -> string;
  (** [AbstractQueryGenerator.whereItemQuery] *)
  abstract_whereItemQuery : whereKey -> value -> whereOptions -> string;
  (** [AbstractQueryGenerator.handleSequelizeMethod] on a literal *)
  abstract_handleSequelizeMethod : string -> string;
  (** the property name under which a [Utils.Literal] key is looked up *)
  literal_propertyName : string -> string;
  (** [Dottie.set(object, path, value)], the object after the call *)
  dottie_set : value -> list string -> value -> value;
  (** [JSON.stringify] *)
  JSON_stringify : value -> string;
  (** [Utils.defaultValueSchemable] *)
  defaultValueSchemable : value -> bool;
  (** [Utils.formatReferences] *)
  formatReferences : attribute -> attribute;
  (** [Utils.inflection.underscore] *)
  underscore : string -> string;
  (** [String.prototype.toUpperCase] *)
  toUpperCase : string -> string
}.

(** ** The generator *)

Section QueryGenerator.

Variable C : Collaborators.

Import JsString.

(** [quoteIdentifier] *)
Definition quoteIdentifier (identifier : string) : string :=
  if String.eqb identifier "*" then identifier
  else addTicks C identifier "`".

(** *** createTableQuery *)

(** The three accumulators of the loop over the attributes. *)
Record columnScan : Type := {
  primaryKeys : list string;
  foreignKeys : list (string * string);
  attrStr : list string
}.

Definition empty_scan : columnScan :=
  {| primaryKeys := []; foreignKeys := []; attrStr := [] |}.

(** The body of the loop, for one attribute.  [match] is [null] when the
    pattern fails, and reading [match[1]] then raises. *)
Definition scan_attribute (st : columnScan) (attr dataType : string)
  : option columnScan :=
  if includes dataType "PRIMARY KEY" then
    if includes dataType "REFERENCES" then
      match match_references dataType with
      | Some (m1, m2) =>
          Some {| primaryKeys := primaryKeys st ++ [attr];
                  attrStr := attrStr st ++
                    [quoteIdentifier attr +:+ " " +:+
                     replace_first "PRIMARY KEY" "" m1];
                  foreignKeys := JsObject.assign (foreignKeys st) attr m2 |}
      | None => None
      end
    else
      Some {| primaryKeys := primaryKeys st ++ [attr];
              attrStr := attrStr st ++
                [quoteIdentifier attr +:+ " " +:+
                 replace_first "PRIMARY KEY" "" dataType];
              foreignKeys := foreignKeys st |}
  else if includes dataType "REFERENCES" then
    match match_references dataType with
    | Some (m1, m2) =>
        Some {| primaryKeys := primaryKeys st;
                attrStr := attrStr st ++ [quoteIdentifier attr +:+ " " +:+ m1];
                foreignKeys := JsObject.assign (foreignKeys st) attr m2 |}
    | None => None
    end
  else
    Some {| primaryKeys := primaryKeys st;
            attrStr := attrStr st ++
              [quoteIdentifier attr +:+ " " +:+ dataType];
            foreignKeys := foreignKeys st |}.

(** The loop over the properties of [object], the argument [attributes] of
    the call; [attributes] here lists the properties still to visit.  Each
    pass begins with the call [object.hasOwnProperty(attr)]. *)
Fixpoint scan_attributes (object : list (string * string)) (st : columnScan)
    (attributes : list (string * string)) : option columnScan :=
  match attributes with
  | [] => Some st
  | (attr, dataType) :: rest =>
      match JsObject.hasOwnProperty object attr with
      | None => None
      | Some false => scan_attributes object st rest
      | Some true =>
          match scan_attribute st attr dataType with
          | Some st' => scan_attributes object st' rest
          | None => None
          end
      end
  end.

(** The text appended for one entry of [options.uniqueKeys]. *)
Definition unique_clause (tableName : tableName)
    (entry : option string * uniqueKey) : string :=
  let (indexName, columns) := entry in
  if uk_singleField columns then EmptyString
  else
    let indexName :=
      match indexName with
      | Some n => n
      | None => "uniq_" +:+ tableName_toString tableName +:+ "_" +:+
                join "_" (uk_fields columns)
      end in
    ", UNIQUE " +:+ quoteIdentifier indexName +:+ " (" +:+
    join ", " (map quoteIdentifier (uk_fields columns)) +:+ ")".

Definition unique_clauses (tableName : tableName)
    (uniqueKeys : option (list (option string * uniqueKey))) : string :=
  match uniqueKeys with
  | Some l => String.concat EmptyString (map (unique_clause tableName) l)
  | None => EmptyString
  end.

Definition primary_key_clause (pks : list string) : string :=
  let pkString := join ", " (map quoteIdentifier pks) in
  if is_empty pkString then EmptyString
  else ", PRIMARY KEY (" +:+ pkString +:+ ")".

Definition foreign_key_clause (fk : string * string) : string :=
  ", FOREIGN KEY (" +:+ quoteIdentifier (fst fk) +:+ ") " +:+ snd fk.

Definition foreign_key_clauses (fks : list (string * string)) : string :=
  String.concat EmptyString (map foreign_key_clause fks).

(** [values.attributes] once the trailing clauses are appended. *)
Definition table_body (tableName : tableName) (options : createTableOptions)
    (st : columnScan) : string :=
  join ", " (attrStr st) +:+
  unique_clauses tableName (ct_uniqueKeys options) +:+
  primary_key_clause (primaryKeys st) +:+
  foreign_key_clauses (foreignKeys st).

(** What follows the closing parenthesis in the template. *)
Definition table_suffix (options : createTableOptions) : string :=
  let engine := default (VStr "InnoDB") (ct_engine options) in
  let charset := default VNull (ct_charset options) in
  " ENGINE=" +:+ interpolate engine +:+
  match ct_comment options with
  | VStr c => if is_empty c then EmptyString
              else " COMMENT " +:+ escape C (VStr c)
  | _ => EmptyString
  end +:+
  (if truthy charset then " DEFAULT CHARSET=" +:+ toString charset
   else EmptyString) +:+
  (if truthy (ct_collate options)
   then " COLLATE " +:+ toString (ct_collate options) else EmptyString) +:+
  (if truthy (ct_initialAutoIncrement options)
   then " AUTO_INCREMENT=" +:+ toString (ct_initialAutoIncrement options)
   else EmptyString).

Definition createTableQuery (tableName : tableName)
    (attributes : list (string * string)) (options : createTableOptions)
  : option string :=
  match scan_attributes attributes empty_scan attributes with
  | Some st =>
      Some (trim ("CREATE TABLE IF NOT EXISTS " +:+ quoteTable C tableName +:+
                  " (" +:+ table_body tableName options st +:+ ")" +:+
                  table_suffix options) +:+ ";")
  | None => None
  end.

(** *** attributeToSQL *)

Definition type_toString (t : columnType) : string :=
  match t with
  | RawType s => s
  | TypeObject toSql _ => toSql (escape C)
  end.

(** [attribute.type !== 'TEXT'] *)
Definition type_is_TEXT (t : columnType) : bool :=
  match t with
  | RawType s => String.eqb s "TEXT"
  | TypeObject _ _ => false
  end.

(** [attribute.type._binary === true] *)
Definition type_is_binary (t : columnType) : bool :=
  match t with
  | RawType _ => false
  | TypeObject _ b => b
  end.

Definition no_attribute (t : columnType) : attribute :=
  {| a_type := t; a_allowNull := VUndefined; a_autoIncrement := VUndefined;
     a_defaultValue := VUndefined; a_unique := VUndefined;
     a_primaryKey := VUndefined; a_after := None; a_references := None;
     a_onDelete := None; a_onUpdate := None; a_field := None |}.

Definition normalize_attribute (a : attributeArg) : attribute :=
  match a with
  | PlainAttribute a => a
  | BareType t => no_attribute t
  end.

Definition not_null_clause (a : attribute) : string :=
  match a_allowNull a with
  | VBool false => " NOT NULL"
  | _ => EmptyString
  end.

Definition auto_increment_clause (a : attribute) : string :=
  if truthy (a_autoIncrement a) then " auto_increment" else EmptyString.

(** Blobs/texts cannot have a defaultValue *)
Definition default_clause (a : attribute) : string :=
  if negb (type_is_TEXT (a_type a)) && negb (type_is_binary (a_type a)) &&
     defaultValueSchemable C (a_defaultValue a)
  then " DEFAULT " +:+ escape C (a_defaultValue a)
  else EmptyString.

Definition unique_marker (a : attribute) : string :=
  match a_unique a with
  | VBool true => " UNIQUE"
  | _ => EmptyString
  end.

Definition primary_key_marker (a : attribute) : string :=
  if truthy (a_primaryKey a) then " PRIMARY KEY" else EmptyString.

Definition after_clause (a : attribute) : string :=
  match some_truthy (a_after a) with
  | Some col => " AFTER " +:+ quoteIdentifier col
  | None => EmptyString
  end.

(** The part appended when [attribute.references] is set; [None] when the
    formatted attribute has no [references] to read [model] from. *)
Definition references_clause (a : attribute) (options : option attributeOptions)
  : option string :=
  match a_references a with
  | None => Some EmptyString
  | Some _ =>
      let a' := formatReferences C a in
      match a_references a' with
      | None => None
      | Some r =>
          let constraint :=
            match options with
            | Some o =>
                match ao_context o, some_truthy (ao_foreignKey o) with
                | Some ctx, Some attrName =>
                    if String.eqb ctx "addColumn" then
                      ", ADD CONSTRAINT " +:+
                      quoteIdentifier (attrName +:+ "_foreign_idx") +:+
                      " FOREIGN KEY (" +:+ quoteIdentifier attrName +:+ ")"
                    else EmptyString
                | _, _ => EmptyString
                end
            | None => EmptyString
            end in
          Some (constraint +:+
                " REFERENCES " +:+ quoteTable C (ref_model r) +:+
                " (" +:+
                quoteIdentifier
                  (match some_truthy (ref_key r) with
                   | Some k => k
                   | None => "id"
                   end) +:+ ")" +:+
                match some_truthy (a_onDelete a') with
                | Some act => " ON DELETE " +:+ toUpperCase C act
                | None => EmptyString
                end +:+
                match some_truthy (a_onUpdate a') with
                | Some act => " ON UPDATE " +:+ toUpperCase C act
                | None => EmptyString
                end)
      end
  end.

Definition attributeToSQL (arg : attributeArg) (options : option attributeOptions)
  : option string :=
  let a := normalize_attribute arg in
  match references_clause a options with
  | Some refs =>
      Some (type_toString (a_type a) +:+ not_null_clause a +:+
            auto_increment_clause a +:+ default_clause a +:+
            unique_marker a +:+ primary_key_marker a +:+ after_clause a +:+
            refs)
  | None => None
  end.

(** [attributesToSQL]: one entry per attribute, under [field] or the key. *)
Fixpoint attributesToSQL (attributes : list (string * attribute))
    (options : option attributeOptions) (result : list (string * string))
  : option (list (string * string)) :=
  match attributes with
  | [] => Some result
  | (key, a) :: rest =>
      match attributeToSQL (PlainAttribute a) options with
      | Some sql =>
          attributesToSQL rest options
            (JsObject.assign result
               (match some_truthy (a_field a) with
                | Some f => f
                | None => key
                end) sql)
      | None => None
      end
  end.

(** *** Column and index statements *)

Definition addColumnQuery (table : tableName) (key : string)
    (dataType : attributeArg) : option string :=
  match attributeToSQL dataType
          (Some {| ao_context := Some "addColumn";
                   ao_foreignKey := Some key |}) with
  | Some definition =>
      Some ("ALTER TABLE " +:+ quoteTable C table +:+ " ADD " +:+
            quoteIdentifier key +:+ " " +:+ definition +:+ ";")
  | None => None
  end.

Definition removeColumnQuery (tableName : tableName) (attributeName : string)
  : string :=
  "ALTER TABLE " +:+ quoteTable C tableName +:+ " DROP " +:+
  quoteIdentifier attributeName +:+ ";".

(** The [ADD CONSTRAINT] entry for a definition that mentions REFERENCES. *)
Definition constraint_entry (attributeName definition : string) : string :=
  quoteIdentifier (attributeName +:+ "_foreign_idx") +:+
  " FOREIGN KEY (" +:+ quoteIdentifier attributeName +:+ ") " +:+
  strip_before_references definition.

(** The [CHANGE] entry for any other definition. *)
Definition change_entry (attributeName definition : string) : string :=
  "`" +:+ attributeName +:+ "` `" +:+ attributeName +:+ "` " +:+ definition.

Fixpoint change_entries (attributes : list (string * string)) : list string :=
  match attributes with
  | [] => []
  | (attributeName, definition) :: rest =>
      if includes definition "REFERENCES" then change_entries rest
      else change_entry attributeName definition :: change_entries rest
  end.

Fixpoint constraint_entries (attributes : list (string * string))
  : list string :=
  match attributes with
  | [] => []
  | (attributeName, definition) :: rest =>
      if includes definition "REFERENCES"
      then constraint_entry attributeName definition :: constraint_entries rest
      else constraint_entries rest
  end.

Definition changeColumnQuery (tableName : tableName)
    (attributes : list (string * string)) : string :=
  let attrString := change_entries attributes in
  let constraintString := constraint_entries attributes in
  let finalQuery :=
    (match attrString with
     | [] => EmptyString
     | _ => "CHANGE " +:+ join ", " attrString +:+
            match constraintString with
            | [] => EmptyString
            | _ => " "
            end
     end) +:+
    (match constraintString with
     | [] => EmptyString
     | _ => "ADD CONSTRAINT " +:+ join ", " constraintString
     end) in
  "ALTER TABLE " +:+ quoteTable C tableName +:+ " " +:+ finalQuery +:+ ";".

Definition rename_entry (attrBefore attrName definition : string) : string :=
  "`" +:+ attrBefore +:+ "` `" +:+ attrName +:+ "` " +:+ definition.

Definition renameColumnQuery (tableName : tableName) (attrBefore : string)
    (attributes : list (string * string)) : string :=
  "ALTER TABLE " +:+ quoteTable C tableName +:+ " CHANGE " +:+
  join ", " (map (fun '(attrName, definition) =>
                    rename_entry attrBefore attrName definition) attributes)
  +:+ ";".

Definition showIndexesQuery (tableName : tableName)
    (options : option (gmap string value)) : string :=
  let database := default VUndefined (default ∅ options !! "database") in
  "SHOW INDEX FROM " +:+ quoteTable C tableName +:+
  (if truthy database then " FROM `" +:+ toString database +:+ "`"
   else EmptyString).

Definition removeIndexQuery (tableName : tableName)
    (indexNameOrAttributes : indexArg) : string :=
  let indexName :=
    match indexNameOrAttributes with
    | IndexName n => n
    | IndexAttributes attrs =>
        underscore C (tableName_toString tableName +:+ "_" +:+ join "_" attrs)
    end in
  "DROP INDEX " +:+ indexName +:+ " ON " +:+ quoteIdentifiers C tableName.

Definition dropForeignKeyQuery (tableName : tableName) (foreignKey : string)
  : string :=
  "ALTER TABLE " +:+ quoteTable C tableName +:+ " DROP FOREIGN KEY " +:+
  quoteIdentifier foreignKey +:+ ";".

(** *** upsertQuery *)

(** One clause of the [ON DUPLICATE KEY UPDATE] list. *)
Definition duplicate_clause (key : string) : string :=
  let key := quoteIdentifier key in
  key +:+ "=VALUES(" +:+ key +:+ ")".

Definition duplicate_clauses (updateValues : list (string * value))
  : list string :=
  map duplicate_clause (map fst updateValues).

(** The effects of a call, beside the SQL it returns: the caller's options
    object after the call, and the lines written to the console. *)
Record upsertResult : Type := {
  upsert_sql : string;
  upsert_options : gmap string value;
  upsert_console : list string
}.

Definition upsertQuery (tableName : tableName)
    (insertValues updateValues : list (string * value)) (where_ : value)
    (rawAttributes : list (string * rawAttribute))
    (options : gmap string value) : upsertResult :=
  let options := <["onDuplicate" := VStr "UPDATE "]> options in
  let options :=
    <["onDuplicate" :=
        VStr (toString (default VUndefined (options !! "onDuplicate")) +:+
              join ", " (duplicate_clauses updateValues))]> options in
  {| upsert_sql := insertQuery C tableName insertValues rawAttributes options;
     upsert_options := options;
     upsert_console :=
       ["ddddddddddddddddddddddddddddddddddddddddddddddddddd"] |}.

(** *** deleteQuery *)

(** The SQL returned, and the caller's options object after the call
    ([None] when the caller passed none: the source then works on an object
    of its own). *)
Definition deleteQuery (tableName : tableName) (where_ : value)
    (options : option (gmap string value))
  : string * option (gmap string value) :=
  let opts := default ∅ options in
  let table := quoteTable C tableName in
  match opts !! "truncate" with
  | Some (VBool true) => ("TRUNCATE " +:+ table, options)
  | _ =>
      let where_ := getWhereConditions C where_ in
      let opts :=
        if isUndefined (default VUndefined (opts !! "limit"))
        then <["limit" := VNum 1]> opts else opts in
      let limit :=
        if truthy (default VUndefined (opts !! "limit"))
        then " LIMIT " +:+ escape C (default VUndefined (opts !! "limit"))
        else EmptyString in
      let query := "DELETE FROM " +:+ table in
      let query :=
        if is_empty where_ then query else query +:+ " WHERE " +:+ where_ in
      (query +:+ limit, match options with Some _ => Some opts | None => None end)
  end.

(** *** whereItemQuery *)

(** [handleSequelizeMethod] on a [Utils.Literal], the only argument that
    [whereItemQuery] passes: a literal is no [Utils.Json], so the call goes
    to the abstract generator. *)
Definition handleSequelizeMethod (literal : string) : string :=
  abstract_handleSequelizeMethod C literal.

Definition key_propertyName (key : whereKey) : string :=
  match key with
  | KStr k => k
  | KLiteral v => literal_propertyName C v
  end.

(** What a read [attrs[k]] finds in [Object.prototype] when [attrs] has no
    own property [k]: a function, or for [__proto__] the prototype itself;
    either is truthy and has neither [type] nor [field]. *)
Definition inherited_member : rawAttribute :=
  {| ra_type := None; ra_field := None |}.

(** [attrs && attrs[k]], a read through the prototype chain. *)
Definition lookup_attribute (attrs : option (list (string * rawAttribute)))
    (k : string) : option rawAttribute :=
  match attrs with
  | Some l =>
      match obj_get l k with
      | Some f => Some f
      | None => if JsObject.inherited k then Some inherited_member else None
      end
  | None => None
  end.

(** [options.field || options.model && ... [key] || options.model && ... [key]] *)
Definition resolve_field (key : whereKey) (options : whereOptions)
  : option rawAttribute :=
  match o_field options with
  | Some f => Some f
  | None =>
      match o_model options with
      | Some m =>
          match lookup_attribute (rawAttributes m) (key_propertyName key) with
          | Some f => Some f
          | None =>
              lookup_attribute (fieldRawAttributesMap m) (key_propertyName key)
          end
      | None => None
      end
  end.

(** [options.type || (field && field.type)] *)
Definition resolve_type (field : option rawAttribute) (options : whereOptions)
  : option dataType :=
  match o_type options with
  | Some t => Some t
  | None => match field with
            | Some f => ra_type f
            | None => None
            end
  end.

(** The rewriting of a dotted key into a nested value: the key, the value
    and the field type afterwards.  Reading a property of an absent
    [rawAttributes] raises.  A member of [Object.prototype] read for the
    first segment has no JSON type, so it leaves the key as an absent
    attribute does. *)
Definition rewrite_dotted (key : whereKey) (val : value)
    (fieldType : option dataType) (options : whereOptions)
  : option (whereKey * value * option dataType) :=
  match key, o_model options with
  | KStr k, Some m =>
      if includes k "." then
        match rawAttributes m with
        | None => None
        | Some attrs =>
            let parts := split_char "." k in
            match obj_get attrs (hd EmptyString parts) with
            | Some f =>
                if instanceof_JSON (ra_type f) then
                  Some (KStr (match some_truthy (ra_field f) with
                              | Some name => name
                              | None => hd EmptyString parts
                              end),
                        dottie_set C (VObj []) (tl parts) val,
                        ra_type f)
                else Some (key, val, fieldType)
            | None => Some (key, val, fieldType)
            end
        end
      else Some (key, val, fieldType)
  | _, _ => Some (key, val, fieldType)
  end.

Definition prefix_of (options : whereOptions) : string :=
  match o_prefix options with
  | Some (PrefixLiteral v) => handleSequelizeMethod v +:+ "."
  | Some (PrefixTable t) =>
      if tableName_truthy t then quoteTable C t +:+ "." else EmptyString
  | None => EmptyString
  end.

(** The cast suffix of the last path segment is cut off (and dropped). *)
Fixpoint strip_cast (path : list string) : list string :=
  match path with
  | [] => []
  | [seg] => if includes seg "::" then [before_first "::" seg] else [seg]
  | seg :: rest => seg :: strip_cast rest
  end.

Definition json_path (prefixedKey : string) (path : list string) : string :=
  prefixedKey +:+ "->>'$." +:+ join "." path +:+ "'".

Section Body.

(** [this.whereItemQuery], for the calls the body makes to itself. *)
Variable self : whereKey -> value -> whereOptions -> option string.

(** [traverse(prop, item, path)]: the fragments it pushes to [items], in
    order.  [where_] is the object [where] of this call, which the loop
    over the properties of [item] keeps and extends. *)
Fixpoint traverse (prefixedKey : string) (item : value) (path : list string)
  {struct item} : list (option string) :=
  let path := strip_cast path in
  let baseKey := json_path prefixedKey path in
  match item with
  | VObj props =>
      (fix forOwn (props where_ : list (string * value))
         : list (option string) :=
         match props with
         | [] => []
         | (prop, item) :: rest =>
             if startsWith "$" prop then
               let where_ := obj_set where_ prop item in
               self (KLiteral baseKey) (VObj where_) no_whereOptions
               :: forOwn rest where_
             else
               traverse prefixedKey item (path ++ [prop]) ++
               forOwn rest where_
         end) props []
  | _ => [self (KLiteral baseKey) (VObj [("$eq", item)]) no_whereOptions]
  end.

(** The loop over the properties of the condition. *)
Fixpoint top_items (key : whereKey) (options : whereOptions)
    (prefixedKey : string) (props : list (string * value))
  : list (option string) :=
  match props with
  | [] => []
  | (prop, item) :: rest =>
      (if startsWith "$" prop
       then [self key (VObj [(prop, item)]) (with_json_false options)]
       else traverse prefixedKey item [prop]) ++
      top_items key options prefixedKey rest
  end.

(** A raised call aborts the whole query. *)
Fixpoint all_fragments (items : list (option string)) : option (list string) :=
  match items with
  | [] => Some []
  | Some x :: rest =>
      match all_fragments rest with
      | Some l => Some (x :: l)
      | None => None
      end
  | None :: _ => None
  end.

Definition join_items (items : list string) : string :=
  let result := join " AND " items in
  match items with
  | _ :: _ :: _ => "(" +:+ result +:+ ")"
  | _ => result
  end.

(** The body of [whereItemQuery].  In the JSON branch the key goes to
    [quoteIdentifier], hence to [Utils.addTicks], which works on strings: a
    literal key raises there. *)
Definition whereItemQuery_body (key : whereKey) (val : value)
    (options : whereOptions) : option string :=
  let field := resolve_field key options in
  let fieldType := resolve_type field options in
  match rewrite_dotted key val fieldType options with
  | None => None
  | Some (key, val, fieldType) =>
      match val with
      | VObj props =>
          if instanceof_JSON fieldType then
            match key with
            | KLiteral _ => None
            | KStr name =>
                let prefixedKey := prefix_of options +:+ quoteIdentifier name in
                match o_json options with
                | VBool false =>
                    if truthy (prop props "$contains") then
                      Some ("JSON_CONTAINS(" +:+ prefixedKey +:+ ", '" +:+
                            JSON_stringify C (prop props "$contains") +:+
                            "')")
                    else Some (abstract_whereItemQuery C key val options)
                | _ =>
                    match all_fragments
                            (top_items key options prefixedKey props) with
                    | Some items => Some (join_items items)
                    | None => None
                    end
                end
            end
          else Some (abstract_whereItemQuery C key val options)
      | _ => Some (abstract_whereItemQuery C key val options)
      end
  end.

End Body.

(** The calls that the body makes to itself end in a branch that makes no
    further call (see [whereItemQuery_unfold]), so two unfoldings tie the
    knot. *)
Definition whereItemQuery : whereKey -> value -> whereOptions -> option string :=
  whereItemQuery_body (whereItemQuery_body (fun _ _ _ => None)).

End QueryGenerator.

(** ** The rest of the generator *)

Section Introspection.

Variable C : Collaborators.

Import JsString.

(** [createSchema]: the template has no placeholder. *)
Definition createSchema : string := "SHOW TABLES".

Definition showSchemasQuery : string := "SHOW TABLES".

Definition versionQuery : string := "SELECT VERSION() as `version`".

Definition showTablesQuery : string := "SHOW TABLES;".

(** [wrapSingleQuote] *)
Definition wrapSingleQuote (identifier : string) : string :=
  addTicks C identifier "'".

(** [getForeignKeysQuery]: both names are concatenated as they are. *)
Definition getForeignKeysQuery (tableName schemaName : string) : string :=
  "SELECT CONSTRAINT_NAME as constraint_name FROM INFORMATION_SCHEMA.KEY_COLUMN_USAGE where TABLE_NAME = '"
  +:+ tableName +:+
  "' AND CONSTRAINT_NAME!='PRIMARY' AND CONSTRAINT_SCHEMA='" +:+ schemaName +:+
  "' AND REFERENCED_TABLE_NAME IS NOT NULL;".

(** [table.tableName || table], then the schema in front when [table.schema]
    is truthy.  An object without a truthy [tableName] stands for itself:
    behind a schema [+] prints it; without one the object itself goes to
    [wrapSingleQuote], hence to [Utils.addTicks], which works on strings
    ([None]). *)
Definition qualified_name (table : tableName) : option string :=
  match table with
  | TName name => Some name
  | TSchema schema name =>
      if is_empty schema then
        if is_empty name then None else Some name
      else
        Some (schema +:+ "." +:+
              (if is_empty name then tableName_toString table else name))
  end.

Definition getForeignKeyQuery (table : tableName) (columnName : string)
  : option string :=
  match qualified_name table with
  | Some tableName =>
      Some (join " "
              ["SELECT CONSTRAINT_NAME as constraint_name";
               "FROM INFORMATION_SCHEMA.KEY_COLUMN_USAGE";
               "WHERE (REFERENCED_TABLE_NAME = " +:+ wrapSingleQuote tableName;
               "AND REFERENCED_COLUMN_NAME = " +:+ wrapSingleQuote columnName;
               ") OR (TABLE_NAME = " +:+ wrapSingleQuote tableName;
               "AND COLUMN_NAME = " +:+ wrapSingleQuote columnName;
               ")"])
  | None => None
  end.

(** The loop of [findAutoIncrementField] over the properties of [object],
    which is [factory.attributes] and holds, under each name, a definition
    or nothing; [attributes] lists the properties still to visit.  Each pass
    begins with the call [object.hasOwnProperty(name)]. *)
Fixpoint autoIncrement_fields
    (object attributes : list (string * option attribute))
  : option (list string) :=
  match attributes with
  | [] => Some []
  | (name, definition) :: rest =>
      match JsObject.hasOwnProperty object name with
      | None => None
      | Some own =>
          match autoIncrement_fields object rest with
          | Some fields =>
              Some (match definition with
                    | Some d =>
                        if own && truthy (a_autoIncrement d)
                        then name :: fields else fields
                    | None => fields
                    end)
          | None => None
          end
      end
  end.

Definition findAutoIncrementField (attributes : list (string * option attribute))
  : option (list string) :=
  autoIncrement_fields attributes attributes.

(** *** handleSequelizeMethod *)

(** A [Utils.Json]: its [conditions], its [path] and its [value]. *)
Record jsonMethod : Type := {
  j_conditions : option value;
  j_path : option string;
  j_value : value
}.

(** The argument of [handleSequelizeMethod]: a [Utils.Json] or, of the other
    methods, a [Utils.Literal]. *)
Inductive sequelizeMethod : Type :=
| Json (j : jsonMethod)
| Literal (val : string).

(** [this.parseConditionObject], of the abstract generator, which is not part
    of this file of the source: the leaves of the conditions, each with its
    path ([_.first] and [_.tail] of it), and its value. *)
Variable parseConditionObject : value -> list ((string * list string) * value).

Definition json_condition (condition : (string * list string) * value)
  : string :=
  let '((first, tail), val) := condition in
  quoteIdentifier C first +:+ "->>'$." +:+ join "." tail +:+ "' = '" +:+
  toString val +:+ "'".

(** The text for a [path]: the PostgreSQL syntax as it is, the dot notation
    as a JSON path. *)
Definition json_path_text (path : string) : string :=
  if includes path "->" || includes path "->>" then path
  else
    let parts := split_char "." path in
    quoteIdentifier C (hd EmptyString parts) +:+ "->>'$." +:+
    join "," (tl parts) +:+ "'".

(** [handleSequelizeMethod] in full; [None] is the result [undefined] of a
    [Utils.Json] that has neither conditions nor a path. *)
Definition handleSequelizeMethod_full (smth : sequelizeMethod)
  : option string :=
  match smth with
  | Json j =>
      match j_conditions j, some_truthy (j_path j) with
      | Some conditions, _ =>
          Some (join " and " (map json_condition (parseConditionObject conditions)))
      | None, Some path =>
          Some (json_path_text path +:+
                (if truthy (j_value j) then " = " +:+ escape C (j_value j)
                 else EmptyString))
      | None, None => None
      end
  | Literal val => Some (abstract_handleSequelizeMethod C val)
  end.

End Introspection.

(** ** A reference implementation of the collaborators

    The theorems below hold for every implementation of [Collaborators].
    Concrete inputs are run against the one defined here, which follows the
    description the specification gives of each collaborator. *)

Module Reference.

Import JsString.

Definition tick : string := "`".
Definition quote : string := "'".
Definition dquote : string := String (ascii_of_nat 34) EmptyString.
Definition backslash : string := String (ascii_of_nat 92) EmptyString.

(** Modelled from the spec: [Utils.addTicks] is not in the source file; the
    identifier escaper of section 4.1 wraps the name in the quote character. *)
Definition addTicks (s tickChar : string) : string :=
  tickChar +:+ s +:+ tickChar.

Definition quoteIdentifier (s : string) : string :=
  if String.eqb s "*" then s else addTicks s tick.

(** Modelled from the spec: [quoteTable] is inherited from the abstract
    generator; section 4.1 has it resolve a schema-qualified name into one
    quoted reference. *)
Definition quoteTable (t : tableName) : string :=
  match t with
  | TName n => quoteIdentifier n
  | TSchema s n => quoteIdentifier s +:+ "." +:+ quoteIdentifier n
  end.

Fixpoint escape_chars (s : string) : string :=
  match s with
  | EmptyString => EmptyString
  | String c t =>
      (if Ascii.eqb c "'" then backslash +:+ quote
       else if Ascii.eqb c (ascii_of_nat 92) then backslash +:+ backslash
       else String c EmptyString) +:+ escape_chars t
  end.

(** Modelled from the spec: [escape] is inherited from the abstract
    generator; section 4.1 has it render a value as a safe SQL literal. *)
Definition escape (v : value) : string :=
  match v with
  | VUndefined | VNull => "NULL"
  | VBool _ | VNum _ => toString v
  | _ => quote +:+ escape_chars (toString v) +:+ quote
  end.

(** Modelled from the spec: the SQL operator that the abstract predicate
    compiler of section 4.3 prints for an operator key. *)
Definition operator (op : string) : string :=
  if String.eqb op "$eq" then "="
  else if String.eqb op "$ne" then "!="
  else if String.eqb op "$gt" then ">"
  else if String.eqb op "$gte" then ">="
  else if String.eqb op "$lt" then "<"
  else if String.eqb op "$lte" then "<="
  else if String.eqb op "$like" then "LIKE"
  else op.

Definition key_sql (key : whereKey) : string :=
  match key with
  | KStr name => quoteIdentifier name
  | KLiteral val => val
  end.

(** Modelled from the spec: [AbstractQueryGenerator.whereItemQuery] is not in
    the source file; section 4.3 has it implement the generic comparison
    semantics, one comparison per operator key. *)
Definition abstract_whereItemQuery (key : whereKey) (v : value)
    (options : whereOptions) : string :=
  match v with
  | VObj props =>
      let items :=
        map (fun '(op, x) =>
               key_sql key +:+ " " +:+ operator op +:+ " " +:+ escape x) props in
      match items with
      | _ :: _ :: _ => "(" +:+ join " AND " items +:+ ")"
      | _ => join " AND " items
      end
  | _ => key_sql key +:+ " = " +:+ escape v
  end.

(** Modelled from the spec: [getWhereConditions] is inherited from the
    abstract generator; section 4.4 has it compile the condition through the
    predicate layer, and no condition gives no WHERE clause. *)
Definition getWhereConditions (v : value) : string :=
  match v with
  | VObj props =>
      join " AND "
        (map (fun '(k, x) => abstract_whereItemQuery (KStr k) x no_whereOptions)
             props)
  | VStr s => s
  | _ => EmptyString
  end.

(** Modelled from the spec: the insert assembler of section 4.4 is not in the
    source file; it appends the text of [options.onDuplicate]. *)
Definition insertQuery (t : tableName) (insertValues : list (string * value))
    (rawAttributes : list (string * rawAttribute)) (options : gmap string value)
  : string :=
  "INSERT INTO " +:+ quoteTable t +:+ " (" +:+
  join "," (map (fun kv => quoteIdentifier (fst kv)) insertValues) +:+
  ") VALUES (" +:+ join "," (map (fun kv => escape (snd kv)) insertValues) +:+
  ")" +:+
  match options !! "onDuplicate" with
  | Some v => if truthy v then " ON DUPLICATE KEY " +:+ toString v
              else EmptyString
  | None => EmptyString
  end +:+ ";".

(** [JSON.stringify], on strings that need no escaping. *)
Fixpoint JSON_stringify (v : value) : string :=
  match v with
  | VUndefined | VNull => "null"
  | VBool _ | VNum _ => toString v
  | VStr s => dquote +:+ s +:+ dquote
  | VArr l =>
      "[" +:+
      join "," ((fix elems (l : list value) : list string :=
                   match l with
                   | [] => []
                   | x :: r => JSON_stringify x :: elems r
                   end) l) +:+ "]"
  | VObj props =>
      "{" +:+
      join "," ((fix members (l : list (string * value)) : list string :=
                   match l with
                   | [] => []
                   | (k, x) :: r =>
                       (dquote +:+ k +:+ dquote +:+ ":" +:+ JSON_stringify x)
                       :: members r
                   end) props) +:+ "}"
  end.

(** [Dottie.set] on a fresh object: the path [b.c] and the value [v] give
    [{b: {c: v}}]. *)
Definition dottie_set (o : value) (path : list string) (v : value) : value :=
  match path with
  | [] => o
  | p :: rest => VObj [(p, fold_right (fun k acc => VObj [(k, acc)]) v rest)]
  end.

(** Modelled from the spec: a defined value that is no function is
    schemable (glossary, schemable default). *)
Definition defaultValueSchemable (v : value) : bool :=
  negb (isUndefined v).

Definition upper_char (c : ascii) : ascii :=
  let n := nat_of_ascii c in
  if (97 <=? n)%nat && (n <=? 122)%nat then ascii_of_nat (n - 32) else c.

Fixpoint toUpperCase (s : string) : string :=
  match s with
  | EmptyString => EmptyString
  | String c t => String (upper_char c) (toUpperCase t)
  end.

Definition collaborators : Collaborators :=
  Build_Collaborators
    addTicks quoteTable quoteTable escape getWhereConditions insertQuery
    abstract_whereItemQuery (fun val => val) (fun _ => "[object Object]")
    dottie_set JSON_stringify defaultValueSchemable (fun a => a) (fun s => s)
    toUpperCase.

End Reference.

(** ** The vocabulary of the statements *)

Section Vocabulary.

Variable C : Collaborators.

Import JsString.

(** The limit that [deleteQuery] works with: [options.limit], or 1 when it
    is undefined. *)
Definition effective_limit (opts : gmap string value) : value :=
  match opts !! "limit" with
  | None | Some VUndefined => VNum 1
  | Some v => v
  end.

(** An attribute that sets nothing but its type and its default value. *)
Definition with_default (t : columnType) (d : value) : attribute :=
  {| a_type := t; a_allowNull := VUndefined; a_autoIncrement := VUndefined;
     a_defaultValue := d; a_unique := VUndefined;
     a_primaryKey := VUndefined; a_after := None; a_references := None;
     a_onDelete := None; a_onUpdate := None; a_field := None |}.

(** The options of a call on a column whose type is JSON. *)
Definition json_column : whereOptions :=
  {| o_field := None; o_model := None; o_type := Some JSON_TYPE;
     o_prefix := None; o_json := VUndefined |}.

(** The key names a column: the rewriting of dotted keys does not apply. *)
Definition plain_column (key : string) (options : whereOptions) : Prop :=
  includes key "." = false \/ o_model options = None.

(** The type resolved for the column is JSON. *)
Definition json_typed (key : string) (options : whereOptions) : Prop :=
  instanceof_JSON
    (resolve_type (resolve_field C (KStr key) options) options) = true.

(** No key of the value, at any depth, begins with [$]. *)
Fixpoint operator_free (v : value) : bool :=
  match v with
  | VObj props =>
      (fix each (l : list (string * value)) : bool :=
         match l with
         | [] => true
         | (k, x) :: r =>
             negb (startsWith "$" k) && operator_free x && each r
         end) props
  | _ => true
  end.

(** The path segment that a key contributes: the key, up to the cast suffix
    if it has one. *)
Definition segment (k : string) : string :=
  if includes k "::" then before_first "::" k else k.

(** The leaves of a nested object, each with the path that leads to it, in
    enumeration order. *)
Fixpoint leaves (path : list string) (v : value) : list (list string * value) :=
  match v with
  | VObj props =>
      (fix each (l : list (string * value)) : list (list string * value) :=
         match l with
         | [] => []
         | (k, x) :: r => leaves (path ++ [segment k]) x ++ each r
         end) props
  | _ => [(path, v)]
  end.

(** The fragment of a leaf: an equality against the JSON path. *)
Definition leaf_fragment (column : string) (leaf : list string * value) : string :=
  abstract_whereItemQuery C
    (KLiteral (column +:+ "->>'$." +:+ join "." (fst leaf) +:+ "'"))
    (VObj [("$eq", snd leaf)]) no_whereOptions.

(** A definition that [createTableQuery] can split: if it mentions
    REFERENCES, the pattern matches it. *)
Definition splittable (dataType : string) : Prop :=
  includes dataType "REFERENCES" = true ->
  is_Some (match_references dataType).

End Vocabulary.

(** ** The vocabulary of the further statements *)

Section MoreVocabulary.

Variable C : Collaborators.

Import JsString.

(** The primary keys that [createTableQuery] collects from definitions
    without REFERENCES, in order. *)
Fixpoint primary_key_columns (attributes : list (string * string))
  : list string :=
  match attributes with
  | [] => []
  | (attr, dataType) :: rest =>
      if includes dataType "PRIMARY KEY"
      then attr :: primary_key_columns rest
      else primary_key_columns rest
  end.

(** The options with another [uniqueKeys]. *)
Definition with_uniqueKeys (options : createTableOptions)
    (uniqueKeys : option (list (option string * uniqueKey)))
  : createTableOptions :=
  {| ct_engine := ct_engine options; ct_charset := ct_charset options;
     ct_comment := ct_comment options; ct_collate := ct_collate options;
     ct_initialAutoIncrement := ct_initialAutoIncrement options;
     ct_uniqueKeys := uniqueKeys |}.



(** The properties still to visit are properties of the object. *)
Definition own {A} (object attributes : list (string * A)) : Prop :=
  Forall (fun kv => kv.1 ∈ object.*1) attributes.

(** The name under which [attributesToSQL] stores an attribute. *)
Definition result_key (key : string) (a : attribute) : string :=
  match some_truthy (a_field a) with
  | Some f => f
  | None => key
  end.

(** The entries of [attributesToSQL], one per attribute, in order; [None]
    when [attributeToSQL] raises on one of them. *)
Fixpoint rendered_entries (attributes : list (string * attribute))
    (options : option attributeOptions) : option (list (string * string)) :=
  match attributes with
  | [] => Some []
  | (key, a) :: rest =>
      match attributeToSQL C (PlainAttribute a) options,
            rendered_entries rest options with
      | Some sql, Some entries => Some ((result_key key a, sql) :: entries)
      | _, _ => None
      end
  end.

(** The last entry stored under a name. *)
Definition last_entry (entries : list (string * string)) (name : string)
  : option string :=
  obj_get (rev entries) name.

(** The fragment of one operator key at the top of a condition on a JSON
    column: the call that [whereItemQuery] makes to itself with
    [json: false]. *)
Definition operator_fragment (key : string) (options : whereOptions)
    (kv : string * value) : string :=
  if truthy (prop [kv] "$contains") then
    "JSON_CONTAINS(" +:+ (prefix_of C options +:+ quoteIdentifier C key) +:+
    ", '" +:+ JSON_stringify C (prop [kv] "$contains") +:+ "')"
  else abstract_whereItemQuery C (KStr key) (VObj [kv]) (with_json_false options).

(** The error of [whereItemQuery]: a dotted key with a model that has no
    [rawAttributes]. *)
Definition dotted_without_rawAttributes (key : string) (options : whereOptions)
  : Prop :=
  includes key "." = true /\
  exists m, o_model options = Some m /\ rawAttributes m = None.

End MoreVocabulary.

(** ** Inputs of the examples *)

(** The options of the examples: [{truncate: true, limit: 10}], and an
    object with a field that [deleteQuery] does not read. *)
Definition truncate_options : gmap string value :=
  <["limit" := VNum 10]> {["truncate" := VBool true]}.

Definition other_options : gmap string value :=
  {["logging" := VBool false]}.

(** A type whose REFERENCES stands on a line of its own. *)
Definition two_line_type : string :=
  "INTEGER PRIMARY KEY" +:+ String (ascii_of_nat 10) "REFERENCES other (id)".

(** A column [owner] that refers to the table [users]. *)
Definition owner_attribute : attribute :=
  {| a_type := RawType "INTEGER"; a_allowNull := VBool false;
     a_autoIncrement := VUndefined; a_defaultValue := VUndefined;
     a_unique := VUndefined; a_primaryKey := VUndefined; a_after := None;
     a_references := Some {| ref_model := TName "users"; ref_key := None |};
     a_onDelete := Some "cascade"; a_onUpdate := None; a_field := None |}.

(** An attribute of the given type that is stored under [field]. *)
Definition with_field (t : columnType) (field : string) : attribute :=
  {| a_type := t; a_allowNull := VUndefined; a_autoIncrement := VUndefined;
     a_defaultValue := VUndefined; a_unique := VUndefined;
     a_primaryKey := VUndefined; a_after := None; a_references := None;
     a_onDelete := None; a_onUpdate := None; a_field := Some field |}.

(** An [id] column that counts. *)
Definition id_attribute : attribute :=
  {| a_type := RawType "INTEGER"; a_allowNull := VUndefined;
     a_autoIncrement := VBool true; a_defaultValue := VUndefined;
     a_unique := VUndefined; a_primaryKey := VBool true; a_after := None;
     a_references := None; a_onDelete := None; a_onUpdate := None;
     a_field := None |}.

(** The options of a call on a model whose attribute [data] is JSON. *)
Definition json_model_options : whereOptions :=
  {| o_field := None;
     o_model :=
       Some {| rawAttributes :=
                 Some [("data", {| ra_type := Some JSON_TYPE;
                                   ra_field := None |})];
               fieldRawAttributesMap := None |};
     o_type := None; o_prefix := None; o_json := VUndefined |}.

(** The options of a call on a model that types [constructor] as JSON in
    [fieldRawAttributesMap] only. *)
Definition constructor_options : whereOptions :=
  {| o_field := None;
     o_model :=
       Some {| rawAttributes := Some [];
               fieldRawAttributesMap :=
                 Some [("constructor", {| ra_type := Some JSON_TYPE;
                                          ra_field := None |})] |};
     o_type := None; o_prefix := None; o_json := VUndefined |}.

(** A [Utils.Json] with the path [data.a.b] and the value 1. *)
Definition path_method : jsonMethod :=
  {| j_conditions := None; j_path := Some "data.a.b"; j_value := VNum 1 |}.

(** ** Facts about strings *)

#[local] Arguments String.append !_ _ / : simpl nomatch.

Section StringFacts.

Import JsString.

Lemma append_assoc (a b c : string) : (a +:+ b) +:+ c = a +:+ (b +:+ c).
Proof. induction a as [|x a IH]; simpl; [reflexivity | f_equal; exact IH]. Qed.

Lemma append_empty_r (a : string) : a +:+ "" = a.
Proof. induction a as [|x a IH]; simpl; [reflexivity | f_equal; exact IH]. Qed.

Lemma startsWith_append (p s : string) : startsWith p (p +:+ s) = true.
Proof.
  induction p as [|x p IH]; simpl; [reflexivity |].
  now rewrite Ascii.eqb_refl.
Qed.

Lemma includes_here (s pat : string) :
  startsWith pat s = true -> includes s pat = true.
Proof. intros H. destruct s; simpl; rewrite H; reflexivity. Qed.

Lemma includes_append_r (a s pat : string) :
  includes s pat = true -> includes (a +:+ s) pat = true.
Proof.
  intros H. induction a as [|x a IH]; simpl; [exact H |].
  rewrite IH. apply orb_true_r.
Qed.

Lemma includes_middle (a pat b : string) : includes (a +:+ pat +:+ b) pat = true.
Proof. apply includes_append_r, includes_here, startsWith_append. Qed.

Lemma includes_tail (c : ascii) (s pat : string) :
  includes (String c s) pat = false -> includes s pat = false.
Proof.
  simpl. intros H. apply orb_false_iff in H. apply H.
Qed.

Lemma includes_head (s pat : string) :
  includes s pat = false -> startsWith pat s = false.
Proof.
  destruct s; simpl; intros H; apply orb_false_iff in H; apply H.
Qed.

Lemma last_references_absent (s : string) :
  includes s " REFERENCES" = false -> last_references s = None.
Proof.
  induction s as [|c s IH]; [reflexivity |].
  intros H. pose proof (includes_head _ _ H) as Hh.
  apply includes_tail in H. cbn [last_references].
  rewrite (IH H), Hh. reflexivity.
Qed.

Lemma last_references_prepend (pre s a b : string) :
  last_references s = Some (a, b) ->
  last_references (pre +:+ s) = Some (pre +:+ a, b).
Proof.
  intros H. induction pre as [|c pre IH]; [exact H |].
  simpl. rewrite IH. reflexivity.
Qed.

Lemma includes_after_keyword (post : string) :
  includes post " REFERENCES" = false ->
  includes ("REFERENCES" +:+ post) " REFERENCES" = false.
Proof. intros H. simpl. rewrite H. reflexivity. Qed.

Lemma last_references_split (pre post : string) :
  includes post " REFERENCES" = false ->
  last_references (pre +:+ " REFERENCES" +:+ post) =
    Some (pre, "REFERENCES" +:+ post).
Proof.
  intros H.
  rewrite (last_references_prepend pre _ "" ("REFERENCES" +:+ post)).
  - now rewrite append_empty_r.
  - change (" REFERENCES" +:+ post) with (String " " ("REFERENCES" +:+ post)).
    cbn [last_references].
    rewrite (last_references_absent _ (includes_after_keyword _ H)).
    reflexivity.
Qed.

Lemma match_references_split (pre post : string) :
  pre <> "" ->
  single_line (pre +:+ " REFERENCES" +:+ post) = true ->
  includes post " REFERENCES" = false ->
  match_references (pre +:+ " REFERENCES" +:+ post) =
    Some (pre, "REFERENCES" +:+ post).
Proof.
  intros Hpre Hline Hpost. unfold match_references.
  rewrite Hline, (last_references_split _ _ Hpost).
  destruct pre; [contradiction | reflexivity].
Qed.

(** The two patterns on sample definitions. *)
Example match_references_usual :
  match_references "INTEGER PRIMARY KEY REFERENCES other (id)" =
    Some ("INTEGER PRIMARY KEY", "REFERENCES other (id)").
Proof. reflexivity. Qed.

Example match_references_greedy :
  match_references "x REFERENCES a REFERENCES b" =
    Some ("x REFERENCES a", "REFERENCES b").
Proof. reflexivity. Qed.

Example match_references_at_start :
  match_references "REFERENCES other (id)" = None.
Proof. reflexivity. Qed.

Example strip_before_references_lazy :
  strip_before_references "INT REFERENCES a REFERENCES b" =
    "REFERENCES a REFERENCES b".
Proof. reflexivity. Qed.

Example replace_first_once :
  replace_first "PRIMARY KEY" "" "INT PRIMARY KEY PRIMARY KEY" =
    "INT  PRIMARY KEY".
Proof. reflexivity. Qed.

End StringFacts.

(** ** deleteQuery *)

Section DeleteQuery.

Variable C : Collaborators.

Import JsString.

(** The options that [deleteQuery] reads: the caller's object, or an empty
    one of its own. *)
Lemma deleteQuery_not_truncate (tableName : tableName) (where_ : value)
    (options : option (gmap string value)) :
  let opts := default ∅ options in
  opts !! "truncate" <> Some (VBool true) ->
  deleteQuery C tableName where_ options =
    ("DELETE FROM " +:+ quoteTable C tableName +:+
     (if is_empty (getWhereConditions C where_) then ""
      else " WHERE " +:+ getWhereConditions C where_) +:+
     (if truthy (effective_limit opts)
      then " LIMIT " +:+ escape C (effective_limit opts) else ""),
     match options with
     | Some _ =>
         Some (if isUndefined (default VUndefined (opts !! "limit"))
               then <["limit" := VNum 1]> opts else opts)
     | None => None
     end).
Proof.
  intros opts Htr. unfold deleteQuery, effective_limit. fold opts.
  destruct (opts !! "truncate") as [[| |[]| | | |]|] eqn:Et;
    try contradiction;
    destruct (opts !! "limit") as [[]|] eqn:El; cbn [from_option id isUndefined];
    rewrite ?lookup_insert_eq, ?El; cbn [from_option id];
    destruct (is_empty (getWhereConditions C where_));
    rewrite ?append_assoc; reflexivity.
Qed.

(** C4: with [options.truncate === true], [deleteQuery] returns exactly
    [TRUNCATE] followed by the quoted table name, whatever the condition and
    the other options are; nothing of [where] or [limit] reaches the text. *)
Theorem deleteQuery_truncate (tableName : tableName) (where_ : value)
    (opts : gmap string value) :
  opts !! "truncate" = Some (VBool true) ->
  fst (deleteQuery C tableName where_ (Some opts)) =
    "TRUNCATE " +:+ quoteTable C tableName.
Proof. intros H. unfold deleteQuery. cbn [from_option id]. rewrite H. reflexivity. Qed.

(** C5: when [options.truncate] is not [true], the limit is [options.limit],
    or 1 when that is undefined; a truthy limit is appended, escaped, as
    [LIMIT n] after the optional [WHERE] clause.  For the call
    [deleteQuery('t', null, {})], with collaborators that quote [t] as
    [`t`], compile no condition from [null] and print 1 as [1], the result is
    [DELETE FROM `t` LIMIT 1]. *)
Theorem deleteQuery_limit (tableName : tableName) (where_ : value)
    (options : option (gmap string value)) :
  let opts := default ∅ options in
  opts !! "truncate" <> Some (VBool true) ->
  fst (deleteQuery C tableName where_ options) =
    "DELETE FROM " +:+ quoteTable C tableName +:+
    (if is_empty (getWhereConditions C where_) then ""
     else " WHERE " +:+ getWhereConditions C where_) +:+
    (if truthy (effective_limit opts)
     then " LIMIT " +:+ escape C (effective_limit opts) else "") /\
  (isUndefined (default VUndefined (opts !! "limit")) = true ->
   effective_limit opts = VNum 1) /\
  (quoteTable C (TName "t") = "`t`" -> getWhereConditions C VNull = "" ->
   escape C (VNum 1) = "1" ->
   fst (deleteQuery C (TName "t") VNull (Some ∅)) = "DELETE FROM `t` LIMIT 1").
Proof.
  intros opts Htr. split; [|split].
  - now rewrite deleteQuery_not_truncate.
  - unfold effective_limit.
    destruct (opts !! "limit") as [[]|]; cbn; congruence.
  - intros Hq Hw He.
    rewrite deleteQuery_not_truncate
      by (cbn [from_option id]; rewrite lookup_empty; discriminate).
    cbn [fst from_option id]. unfold effective_limit.
    rewrite lookup_empty, Hq, Hw, He. reflexivity.
Qed.

(** C10: called with an options object whose [limit] is undefined and whose
    [truncate] is not [true], [deleteQuery] leaves the caller's object with
    [limit] set to 1, and with every other field as it was. *)
Theorem deleteQuery_sets_limit (tableName : tableName) (where_ : value)
    (opts : gmap string value) :
  opts !! "truncate" <> Some (VBool true) ->
  isUndefined (default VUndefined (opts !! "limit")) = true ->
  exists opts',
    snd (deleteQuery C tableName where_ (Some opts)) = Some opts' /\
    opts' !! "limit" = Some (VNum 1) /\
    forall k, k <> "limit" -> opts' !! k = opts !! k.
Proof.
  intros Htr Hlim.
  rewrite (deleteQuery_not_truncate tableName where_ (Some opts)) by assumption.
  cbn [snd from_option id]. rewrite Hlim. eexists. split; [reflexivity |]. split.
  - apply lookup_insert_eq.
  - intros k Hk. now apply lookup_insert_ne.
Qed.

(** Whatever the options are, no field other than [limit] changes. *)
Lemma deleteQuery_frame (tableName : tableName) (where_ : value)
    (opts : gmap string value) :
  exists opts',
    snd (deleteQuery C tableName where_ (Some opts)) = Some opts' /\
    forall k, k <> "limit" -> opts' !! k = opts !! k.
Proof.
  assert (Hother : opts !! "truncate" <> Some (VBool true) ->
    exists opts',
      snd (deleteQuery C tableName where_ (Some opts)) = Some opts' /\
      forall k, k <> "limit" -> opts' !! k = opts !! k).
  { intros Htr.
    rewrite (deleteQuery_not_truncate tableName where_ (Some opts))
      by assumption.
    cbn [snd from_option id]. eexists. split; [reflexivity |]. intros k Hk.
    destruct (isUndefined _); [now apply lookup_insert_ne | reflexivity]. }
  destruct (opts !! "truncate") as [v|] eqn:Et; [|apply Hother; discriminate].
  assert (Hv : v = VBool true \/ v <> VBool true).
  { destruct v as [| |[]| | | |]; try (right; discriminate). now left. }
  destruct Hv as [->|Hv]; [|apply Hother; congruence].
  exists opts. split; [|reflexivity].
  unfold deleteQuery. cbn [from_option id]. now rewrite Et.
Qed.

(** Without an options object there is nothing of the caller's to change. *)
Lemma deleteQuery_no_options (tableName : tableName) (where_ : value) :
  snd (deleteQuery C tableName where_ None) = None.
Proof. reflexivity. Qed.

End DeleteQuery.

Lemma deleteQuery_truncate_example :
  fst (deleteQuery Reference.collaborators (TName "t")
         (VObj [("id", VNum 7)]) (Some truncate_options)) = "TRUNCATE `t`".
Proof.
  apply (deleteQuery_truncate Reference.collaborators (TName "t")
           (VObj [("id", VNum 7)]) truncate_options).
  vm_compute. reflexivity.
Defined.

Lemma deleteQuery_limit_example :
  fst (deleteQuery Reference.collaborators (TName "t") VNull (Some ∅)) =
    "DELETE FROM `t` LIMIT 1".
Proof.
  refine (proj2 (proj2 (deleteQuery_limit Reference.collaborators (TName "t")
                          VNull (Some ∅) _)) _ _ _);
    vm_compute; try reflexivity; discriminate.
Defined.

Lemma deleteQuery_sets_limit_example :
  exists opts',
    snd (deleteQuery Reference.collaborators (TName "t") VNull
           (Some other_options)) = Some opts' /\
    opts' !! "limit" = Some (VNum 1) /\
    forall k, k <> "limit" -> opts' !! k = other_options !! k.
Proof.
  apply (deleteQuery_sets_limit Reference.collaborators (TName "t") VNull
           other_options); vm_compute; [discriminate | reflexivity].
Defined.

(** ** upsertQuery *)

Section UpsertQuery.

Variable C : Collaborators.

Import JsString.

Lemma duplicate_clauses_length (updateValues : list (string * value)) :
  length (duplicate_clauses C updateValues) = length updateValues.
Proof. unfold duplicate_clauses. now rewrite !length_map. Qed.

Lemma duplicate_clauses_each (updateValues : list (string * value)) :
  Forall2 (fun kv clause =>
             clause = quoteIdentifier C (fst kv) +:+ "=VALUES(" +:+
                      quoteIdentifier C (fst kv) +:+ ")")
          updateValues (duplicate_clauses C updateValues).
Proof.
  unfold duplicate_clauses.
  induction updateValues as [|kv l IH]; constructor; [reflexivity | exact IH].
Qed.

(** C8: [upsertQuery] leaves [options.onDuplicate] equal to [UPDATE ]
    followed by the comma-joined clauses, one clause [col=VALUES(col)] per key
    of [updateValues] in order ([col] being the quoted key), touches no other
    option, and returns what the insert assembler returns for the options so
    set. *)
Theorem upsertQuery_onDuplicate (tableName : tableName)
    (insertValues updateValues : list (string * value)) (where_ : value)
    (rawAttributes : list (string * rawAttribute))
    (options : gmap string value) :
  let result :=
    upsertQuery C tableName insertValues updateValues where_ rawAttributes
      options in
  exists clauses : list string,
    upsert_options result =
      <["onDuplicate" := VStr ("UPDATE " +:+ join ", " clauses)]> options /\
    length clauses = length updateValues /\
    Forall2 (fun kv clause =>
               clause = quoteIdentifier C (fst kv) +:+ "=VALUES(" +:+
                        quoteIdentifier C (fst kv) +:+ ")")
            updateValues clauses /\
    upsert_sql result =
      insertQuery C tableName insertValues rawAttributes
        (upsert_options result).
Proof.
  exists (duplicate_clauses C updateValues).
  split; [|split; [|split]].
  - unfold upsertQuery. cbn [upsert_options].
    rewrite lookup_insert_eq. cbn [from_option id toString].
    now rewrite insert_insert_eq.
  - apply duplicate_clauses_length.
  - apply duplicate_clauses_each.
  - reflexivity.
Qed.

End UpsertQuery.

(** ** attributeToSQL *)

Section AttributeToSQL.

Variable C : Collaborators.

Import JsString.

(** The DEFAULT clause is there exactly when the guard of the source holds:
    the type is not the string [TEXT], its [_binary] flag is not set, and the
    default value is schemable. *)
Lemma default_clause_guard (a : attribute) :
  default_clause C a =
    if negb (type_is_TEXT (a_type a)) && negb (type_is_binary (a_type a)) &&
       defaultValueSchemable C (a_defaultValue a)
    then " DEFAULT " +:+ escape C (a_defaultValue a) else "".
Proof. reflexivity. Qed.

Lemma default_clause_TEXT (a : attribute) :
  a_type a = RawType "TEXT" -> default_clause C a = "".
Proof. intros H. unfold default_clause. now rewrite H. Qed.

Lemma default_clause_binary (a : attribute) toSql :
  a_type a = TypeObject toSql true -> default_clause C a = "".
Proof. intros H. unfold default_clause. now rewrite H. Qed.

(** The example of the specification: no DEFAULT clause for [TEXT]. *)
Lemma attributeToSQL_TEXT (d : value) :
  attributeToSQL C (PlainAttribute (with_default (RawType "TEXT") d)) None =
    Some "TEXT".
Proof. reflexivity. Qed.

(** C7, at the failing inputs [{type: 'BLOB', defaultValue: 'x'}] and the
    like: the source's own comment says that blobs and texts cannot have a
    default value, yet the guard only looks for the string [TEXT] and for the
    [_binary] flag, so every other raw type, a binary or large-text one
    included, gets a DEFAULT clause for a schemable default value. *)
Theorem attributeToSQL_raw_type_default (sqlType : string) (d : value) :
  sqlType <> "TEXT" ->
  defaultValueSchemable C d = true ->
  attributeToSQL C (PlainAttribute (with_default (RawType sqlType) d)) None =
    Some (sqlType +:+ " DEFAULT " +:+ escape C d).
Proof.
  intros Ht Hd. unfold attributeToSQL, default_clause.
  cbn -[String.append String.eqb].
  destruct (String.eqb_spec sqlType "TEXT") as [|_]; [contradiction |].
  rewrite Hd. cbn -[String.append]. now rewrite !append_empty_r.
Qed.

End AttributeToSQL.

Lemma attributeToSQL_BLOB_example :
  attributeToSQL Reference.collaborators
    (PlainAttribute (with_default (RawType "BLOB") (VStr "x"))) None =
    Some "BLOB DEFAULT 'x'" /\
  attributeToSQL Reference.collaborators
    (PlainAttribute (with_default (RawType "LONGTEXT") (VStr "x"))) None =
    Some "LONGTEXT DEFAULT 'x'".
Proof.
  split.
  - apply (attributeToSQL_raw_type_default Reference.collaborators "BLOB"
             (VStr "x")); [discriminate | reflexivity].
  - apply (attributeToSQL_raw_type_default Reference.collaborators "LONGTEXT"
             (VStr "x")); [discriminate | reflexivity].
Defined.

(** ** Identifiers that bypass the escaper *)

Section RawIdentifiers.

Variable C : Collaborators.

Import JsString.

(** A definition without REFERENCES: the column name is wrapped in ticks by
    hand, whatever [quoteIdentifier] would do with it. *)
Lemma changeColumnQuery_change (tableName : tableName)
    (attributeName definition : string) :
  includes definition "REFERENCES" = false ->
  changeColumnQuery C tableName [(attributeName, definition)] =
    "ALTER TABLE " +:+ quoteTable C tableName +:+ " CHANGE `" +:+
    attributeName +:+ "` `" +:+ attributeName +:+ "` " +:+ definition +:+ ";".
Proof.
  intros H. unfold changeColumnQuery. cbn [change_entries constraint_entries].
  rewrite H. cbn [join]. unfold change_entry.
  rewrite append_empty_r, !append_assoc. reflexivity.
Qed.

(** The sibling branch, for a definition with REFERENCES, does quote. *)
Lemma changeColumnQuery_constraint (tableName : tableName)
    (attributeName definition : string) :
  includes definition "REFERENCES" = true ->
  changeColumnQuery C tableName [(attributeName, definition)] =
    "ALTER TABLE " +:+ quoteTable C tableName +:+ " ADD CONSTRAINT " +:+
    quoteIdentifier C (attributeName +:+ "_foreign_idx") +:+
    " FOREIGN KEY (" +:+ quoteIdentifier C attributeName +:+ ") " +:+
    strip_before_references definition +:+ ";".
Proof.
  intros H. unfold changeColumnQuery. cbn [change_entries constraint_entries].
  rewrite H. cbn [join]. unfold constraint_entry.
  rewrite !append_assoc. reflexivity.
Qed.

(** C9, at failing inputs: a column name, a database name and an index name
    that contain a tick reach the SQL text as they are.  The results mention
    no escaper but [quoteTable] (or [quoteIdentifiers]) of the table name:
    the other identifiers never pass through [quoteIdentifier] or [escape]. *)
Theorem identifiers_not_escaped :
  changeColumnQuery C (TName "t") [("a`b", "INT")] =
    "ALTER TABLE " +:+ quoteTable C (TName "t") +:+ " CHANGE `a`b` `a`b` INT;" /\
  renameColumnQuery C (TName "t") "a`b" [("c`d", "INT")] =
    "ALTER TABLE " +:+ quoteTable C (TName "t") +:+ " CHANGE `a`b` `c`d` INT;" /\
  showIndexesQuery C (TName "t") (Some {["database" := VStr "db`x"]}) =
    "SHOW INDEX FROM " +:+ quoteTable C (TName "t") +:+ " FROM `db`x`" /\
  removeIndexQuery C (TName "t") (IndexName "i`x") =
    "DROP INDEX i`x ON " +:+ quoteIdentifiers C (TName "t").
Proof.
  split; [now rewrite changeColumnQuery_change |].
  split; [|split]; reflexivity.
Qed.

End RawIdentifiers.

(** ** whereItemQuery on a JSON column *)

Section WhereItemQuery.

Variable C : Collaborators.

Import JsString.

(** A call on a literal key without options goes to the abstract
    generator, whatever [this.whereItemQuery] is. *)
Lemma whereItemQuery_body_literal self (baseKey : string)
    (where_ : list (string * value)) :
  whereItemQuery_body C self (KLiteral baseKey) (VObj where_) no_whereOptions =
    Some (abstract_whereItemQuery C (KLiteral baseKey) (VObj where_)
            no_whereOptions).
Proof. reflexivity. Qed.

(** With [json: false] the body makes no call to itself. *)
Lemma whereItemQuery_body_json_false self1 self2 (key : whereKey) (val : value)
    (options : whereOptions) :
  o_json options = VBool false ->
  whereItemQuery_body C self1 key val options =
  whereItemQuery_body C self2 key val options.
Proof.
  intros H. unfold whereItemQuery_body.
  destruct (rewrite_dotted _ _ _ _ _) as [[[k v] t]|]; [|reflexivity].
  destruct v; try reflexivity.
  destruct (instanceof_JSON t); [|reflexivity].
  destruct k; [|reflexivity]. now rewrite H.
Qed.

Section Extensionality.

Variables self1 self2 : whereKey -> value -> whereOptions -> option string.

Hypothesis same_on_literals :
  forall baseKey where_,
    self1 (KLiteral baseKey) (VObj where_) no_whereOptions =
    self2 (KLiteral baseKey) (VObj where_) no_whereOptions.

Hypothesis same_on_json_false :
  forall key val options,
    self1 key val (with_json_false options) =
    self2 key val (with_json_false options).

Lemma traverse_ext (prefixedKey : string) (item : value) :
  forall path,
    traverse self1 prefixedKey item path = traverse self2 prefixedKey item path.
Proof.
  induction item as [v Hv | props IH] using value_object_ind; intros path.
  - destruct v; try discriminate; cbn [traverse];
      now rewrite same_on_literals.
  - cbn [traverse]. generalize (@nil (string * value)) as where_.
    induction IH as [|[prop item] rest Hitem _ IHrest]; intros where_;
      [reflexivity |].
    destruct (startsWith "$" prop).
    + now rewrite same_on_literals, IHrest.
    + cbn [snd] in Hitem. now rewrite Hitem, IHrest.
Qed.

Lemma top_items_ext (key : whereKey) (options : whereOptions)
    (prefixedKey : string) (props : list (string * value)) :
  top_items self1 key options prefixedKey props =
  top_items self2 key options prefixedKey props.
Proof.
  induction props as [|[prop item] rest IH]; [reflexivity |].
  cbn [top_items]. rewrite IH, same_on_json_false, traverse_ext.
  reflexivity.
Qed.

Lemma whereItemQuery_body_ext (key : whereKey) (val : value)
    (options : whereOptions) :
  whereItemQuery_body C self1 key val options =
  whereItemQuery_body C self2 key val options.
Proof.
  unfold whereItemQuery_body.
  destruct (rewrite_dotted _ _ _ _ _) as [[[k v] t]|]; [|reflexivity].
  destruct v; try reflexivity.
  destruct (instanceof_JSON t); [|reflexivity].
  destruct k; [|reflexivity]. now rewrite top_items_ext.
Qed.

End Extensionality.

(** [whereItemQuery] is the function that the source defines by recursion:
    it satisfies the equation of its body, with itself for
    [this.whereItemQuery]. *)
Lemma whereItemQuery_unfold (key : whereKey) (val : value)
    (options : whereOptions) :
  whereItemQuery C key val options =
  whereItemQuery_body C (whereItemQuery C) key val options.
Proof.
  unfold whereItemQuery. apply whereItemQuery_body_ext.
  - reflexivity.
  - intros k v o. now apply whereItemQuery_body_json_false.
Qed.

(** *** Calls on a plain column of JSON type *)

Lemma rewrite_dotted_plain (key : string) (val : value)
    (fieldType : option dataType) (options : whereOptions) :
  plain_column key options ->
  rewrite_dotted C (KStr key) val fieldType options =
    Some (KStr key, val, fieldType).
Proof.
  unfold rewrite_dotted. intros [H|H]; rewrite H; [|reflexivity].
  now destruct (o_model options).
Qed.

Lemma whereItemQuery_body_json (self : whereKey -> value -> whereOptions -> option string)
    (key : string) (props : list (string * value)) (options : whereOptions) :
  plain_column key options -> json_typed C key options ->
  whereItemQuery_body C self (KStr key) (VObj props) options =
    let prefixedKey := prefix_of C options +:+ quoteIdentifier C key in
    match o_json options with
    | VBool false =>
        if truthy (prop props "$contains") then
          Some ("JSON_CONTAINS(" +:+ prefixedKey +:+ ", '" +:+
                JSON_stringify C (prop props "$contains") +:+ "')")
        else Some (abstract_whereItemQuery C (KStr key) (VObj props) options)
    | _ =>
        match all_fragments
                (top_items self (KStr key) options prefixedKey props) with
        | Some items => Some (join_items items)
        | None => None
        end
    end.
Proof.
  intros Hplain Hjson. unfold whereItemQuery_body.
  rewrite rewrite_dotted_plain by assumption.
  unfold json_typed in Hjson. now rewrite Hjson.
Qed.


(** *** Nested objects without operator keys *)

Lemma strip_cast_last (path : list string) (k : string) :
  strip_cast (path ++ [k]) = path ++ [segment k].
Proof.
  induction path as [|p path IH].
  - unfold segment. cbn. now destruct (includes k "::").
  - cbn [app]. rewrite <- IH. destruct path; reflexivity.
Qed.

Lemma all_fragments_map {A} (f : A -> string) (l : list A) :
  all_fragments (map (fun x => Some (f x)) l) = Some (map f l).
Proof. induction l as [|x l IH]; [reflexivity |]. cbn. now rewrite IH. Qed.

Lemma join_items_length (items : list string) :
  join_items items =
    if (1 <? length items)%nat then "(" +:+ join " AND " items +:+ ")"
    else join " AND " items.
Proof. destruct items as [|a [|b r]]; reflexivity. Qed.

Section Leaves.

Variable self : whereKey -> value -> whereOptions -> option string.

Hypothesis self_literal :
  forall baseKey where_,
    self (KLiteral baseKey) (VObj where_) no_whereOptions =
    Some (abstract_whereItemQuery C (KLiteral baseKey) (VObj where_)
            no_whereOptions).

Lemma traverse_leaves (column : string) (item : value) :
  forall path k,
    operator_free item = true ->
    traverse self column item (path ++ [k]) =
      map (fun leaf => Some (leaf_fragment C column leaf))
          (leaves (path ++ [segment k]) item).
Proof.
  induction item as [v Hv | props IH] using value_object_ind;
    intros path k Hfree.
  - destruct v; try discriminate; cbn [traverse leaves map];
      now rewrite strip_cast_last, self_literal.
  - cbn [traverse leaves]. rewrite strip_cast_last.
    cbn [operator_free] in Hfree. revert Hfree.
    generalize (@nil (string * value)) as where_.
    induction IH as [|[prop item] rest Hitem _ IHrest]; intros where_ Hfree;
      [reflexivity |].
    apply andb_true_iff in Hfree as [Hfree Hrest].
    apply andb_true_iff in Hfree as [Hprop Hfree].
    apply negb_true_iff in Hprop. rewrite Hprop.
    cbn [snd] in Hitem. rewrite Hitem by assumption.
    rewrite (IHrest where_ Hrest), map_app. reflexivity.
Qed.

Lemma top_items_leaves (key : whereKey) (options : whereOptions)
    (column : string) (props : list (string * value)) :
  operator_free (VObj props) = true ->
  top_items self key options column props =
    map (fun leaf => Some (leaf_fragment C column leaf)) (leaves [] (VObj props)).
Proof.
  cbn [operator_free leaves].
  induction props as [|[prop item] rest IH]; intros Hfree; [reflexivity |].
  apply andb_true_iff in Hfree as [Hfree Hrest].
  apply andb_true_iff in Hfree as [Hprop Hfree].
  apply negb_true_iff in Hprop. cbn [top_items]. rewrite Hprop.
  pose proof (traverse_leaves column item [] prop Hfree) as Hitem.
  cbn [app] in Hitem |- *. rewrite Hitem, (IH Hrest), map_app.
  reflexivity.
Qed.

End Leaves.

(** C2, as amended: let the key name the column (it has no dot, or no
    [options.model] is given, so that the key is not rewritten), let the type
    resolved for it be JSON and [options.json] not be [false].  Then a nested
    plain object none of whose keys begins with [$] compiles to one fragment
    per leaf, in order:
    the equality [{$eq: leaf}], rendered by the abstract predicate compiler,
    against the extraction [column->>'$.p1.p2...pn'] from the (optionally
    prefixed) quoted column, where each [pi] is the key on the way to the
    leaf up to its cast suffix [::...], if it has one.  The fragments are
    joined with [ AND ], and the result is parenthesised exactly when there
    is more than one. *)
Theorem whereItemQuery_json_leaves (key : string)
    (props : list (string * value)) (options : whereOptions) :
  plain_column key options -> json_typed C key options ->
  o_json options <> VBool false ->
  operator_free (VObj props) = true ->
  let column := prefix_of C options +:+ quoteIdentifier C key in
  let items := map (leaf_fragment C column) (leaves [] (VObj props)) in
  whereItemQuery C (KStr key) (VObj props) options =
    Some (if (1 <? length items)%nat
          then "(" +:+ join " AND " items +:+ ")"
          else join " AND " items).
Proof.
  intros Hplain Hjson Hnot Hfree column items. unfold whereItemQuery.
  rewrite whereItemQuery_body_json by assumption. cbn zeta. fold column.
  rewrite top_items_leaves by (assumption || reflexivity).
  rewrite all_fragments_map, join_items_length. fold items.
  destruct (o_json options) as [| |[]| | | |]; try reflexivity.
  now contradiction Hnot.
Qed.

(** One operator key under a path key: the operator leaf is compiled
    against the JSON path, as for [{a: {$gt: 5}}]. *)
Lemma whereItemQuery_single_operator (k op : string) (v : value) :
  startsWith "$" k = false -> startsWith "$" op = true ->
  whereItemQuery C (KStr "data") (VObj [(k, VObj [(op, v)])]) json_column =
    Some (abstract_whereItemQuery C
            (KLiteral (quoteIdentifier C "data" +:+ "->>'$." +:+ segment k +:+
                       "'"))
            (VObj [(op, v)]) no_whereOptions).
Proof.
  intros Hk Hop. unfold whereItemQuery.
  cbn -[String.append quoteIdentifier startsWith strip_cast].
  rewrite Hk. cbn -[String.append quoteIdentifier startsWith strip_cast].
  rewrite Hop. change [k] with ([] ++ [k]). rewrite strip_cast_last.
  reflexivity.
Qed.

(** C3, at the failing input [{a: {$gt: 5, $lt: 10}}]: the object [where]
    of [traverse] is shared by the operator keys of one object, so the
    fragment pushed for [$lt] compiles [{$gt: 5, $lt: 10}], and not the
    operator leaf [{$lt: 10}]. *)
Theorem whereItemQuery_operators_accumulate :
  let path := KLiteral (quoteIdentifier C "data" +:+ "->>'$.a'") in
  whereItemQuery C (KStr "data")
    (VObj [("a", VObj [("$gt", VNum 5); ("$lt", VNum 10)])]) json_column =
    Some ("(" +:+
          abstract_whereItemQuery C path (VObj [("$gt", VNum 5)])
            no_whereOptions +:+ " AND " +:+
          abstract_whereItemQuery C path
            (VObj [("$gt", VNum 5); ("$lt", VNum 10)]) no_whereOptions +:+
          ")").
Proof.
  intros path. unfold whereItemQuery.
  cbn -[String.append quoteIdentifier]. unfold json_path. cbn [join].
  rewrite !append_assoc. reflexivity.
Qed.

End WhereItemQuery.

Import JsString.



Lemma whereItemQuery_json_leaves_example :
  whereItemQuery Reference.collaborators (KStr "data")
    (VObj [("a", VObj [("b", VNum 5)])]) json_column =
    Some "`data`->>'$.a.b' = 5".
Proof.
  rewrite (whereItemQuery_json_leaves Reference.collaborators "data"
             [("a", VObj [("b", VNum 5)])] json_column);
    [reflexivity | now left | reflexivity | discriminate | reflexivity].
Defined.

(** C2, as stated, fails: the leaf under the key [a::int] is compared
    against the path [$.a], the key without its cast suffix. *)
Lemma whereItemQuery_cast_suffix_cut :
  whereItemQuery Reference.collaborators (KStr "data")
    (VObj [("a::int", VNum 5)]) json_column = Some "`data`->>'$.a' = 5".
Proof. reflexivity. Qed.

(** ** Facts about objects *)

Section ObjectFacts.

Context {A : Type}.

Implicit Types (o : list (string * A)) (k : string) (v : A).

Lemma obj_get_none o k : obj_get o k = None <-> k ∉ o.*1.
Proof.
  induction o as [|[k' v'] o IH]; cbn [obj_get].
  - split; [intros _; apply not_elem_of_nil | reflexivity].
  - rewrite fmap_cons, not_elem_of_cons. cbn [fst].
    destruct (String.eqb_spec k' k) as [->|Hne].
    + split; [discriminate | intros [Hk _]; contradiction].
    + rewrite IH. split; [intros H; split; [congruence | exact H] | now intros [_ H]].
Qed.

Lemma obj_get_elem o k v : obj_get o k = Some v -> (k, v) ∈ o.
Proof.
  induction o as [|[k' v'] o IH]; cbn [obj_get]; [discriminate |].
  destruct (String.eqb_spec k' k) as [->|_].
  - intros [= ->]. left.
  - intros H. right. now apply IH.
Qed.

Lemma obj_get_app o1 o2 k :
  obj_get (o1 ++ o2) k =
    match obj_get o1 k with
    | Some v => Some v
    | None => obj_get o2 k
    end.
Proof.
  induction o1 as [|[k0 v0] o1 IH]; [reflexivity |].
  cbn [app obj_get]. now destruct (String.eqb k0 k).
Qed.

Lemma obj_get_update o k v k' :
  obj_get o k <> None ->
  obj_get (JsObject.update o k v) k' =
    if String.eqb k k' then Some v else obj_get o k'.
Proof.
  induction o as [|[k0 v0] o IH]; cbn [obj_get JsObject.update];
    [contradiction |].
  destruct (String.eqb_spec k0 k) as [->|Hne]; intros H; cbn [obj_get].
  - now destruct (String.eqb k k').
  - rewrite (IH H). destruct (String.eqb_spec k0 k') as [->|_]; [|reflexivity].
    destruct (String.eqb_spec k k') as [->|_]; [contradiction | reflexivity].
Qed.

Lemma obj_get_insert_index (n : N) o k v k' :
  obj_get o k = None ->
  obj_get (JsObject.insert_index n k v o) k' =
    if String.eqb k k' then Some v else obj_get o k'.
Proof.
  induction o as [|[k0 v0] o IH]; cbn [obj_get JsObject.insert_index].
  - reflexivity.
  - destruct (String.eqb_spec k0 k) as [->|Hne]; [discriminate |]. intros H.
    destruct (JsObject.array_index k0) as [n0|];
      [destruct (n0 <? n)%N |]; cbn [obj_get]; try reflexivity.
    rewrite (IH H). destruct (String.eqb_spec k0 k') as [->|_]; [|reflexivity].
    destruct (String.eqb_spec k k') as [->|_]; [contradiction | reflexivity].
Qed.

(** Reading after an assignment: the name [__proto__] stores nothing, any
    other name holds the value assigned, and no other property changes. *)
Lemma obj_get_assign o k v k' :
  obj_get (JsObject.assign o k v) k' =
    if String.eqb k "__proto__" then obj_get o k'
    else if String.eqb k k' then Some v
    else obj_get o k'.
Proof.
  unfold JsObject.assign. destruct (String.eqb k "__proto__"); [reflexivity |].
  destruct (obj_get o k) eqn:E.
  - apply obj_get_update. congruence.
  - destruct (JsObject.array_index k).
    + now apply obj_get_insert_index.
    + rewrite obj_get_app. cbn [obj_get].
      destruct (String.eqb_spec k k') as [<-|_]; [now rewrite E |].
      now destruct (obj_get o k').
Qed.

(** A new name that is ordinary goes to the end. *)
Lemma assign_fresh o k v :
  JsObject.ordinary k = true -> k ∉ o.*1 ->
  JsObject.assign o k v = o ++ [(k, v)].
Proof.
  unfold JsObject.ordinary, JsObject.assign. intros H Hfresh.
  apply andb_true_iff in H as [Hproto Hindex].
  apply negb_true_iff in Hproto. rewrite Hproto.
  apply obj_get_none in Hfresh. rewrite Hfresh.
  now destruct (JsObject.array_index k).
Qed.

(** The method [hasOwnProperty] of an object that has no own property of
    that name answers for the own properties. *)
Lemma hasOwnProperty_own o k :
  "hasOwnProperty" ∉ o.*1 -> k ∈ o.*1 ->
  JsObject.hasOwnProperty o k = Some true.
Proof.
  intros Hmethod Hk. unfold JsObject.hasOwnProperty.
  apply obj_get_none in Hmethod. rewrite Hmethod.
  destruct (obj_get o k) eqn:E; [reflexivity |].
  now apply obj_get_none in E.
Qed.

(** With an own property of that name, every call raises. *)
Lemma hasOwnProperty_hidden o k :
  "hasOwnProperty" ∈ o.*1 -> JsObject.hasOwnProperty o k = None.
Proof.
  intros H. unfold JsObject.hasOwnProperty.
  destruct (obj_get o "hasOwnProperty") eqn:E; [reflexivity |].
  now apply obj_get_none in E.
Qed.

End ObjectFacts.

(** ** createTableQuery *)

Section CreateTableQuery.

Variable C : Collaborators.

Import JsString.

Lemma is_empty_append (a b : string) :
  is_empty (a +:+ b) = is_empty a && is_empty b.
Proof. destruct a; reflexivity. Qed.

Lemma is_empty_false (s : string) : s <> "" -> is_empty s = false.
Proof. destruct s; [contradiction | reflexivity]. Qed.

Lemma join_not_empty (sep : string) (l1 l2 : list string) (x : string) :
  x <> "" -> is_empty (join sep (l1 ++ x :: l2)) = false.
Proof.
  intros Hx. induction l1 as [|a l1 IH].
  - cbn [app join]. destruct l2; [now apply is_empty_false |].
    rewrite is_empty_append, (is_empty_false x Hx). reflexivity.
  - cbn [app join]. destruct (l1 ++ x :: l2) eqn:E.
    + now destruct l1.
    + rewrite !is_empty_append, IH, !andb_false_r. reflexivity.
Qed.

Lemma concat_app (l1 l2 : list string) :
  String.concat "" (l1 ++ l2) = String.concat "" l1 +:+ String.concat "" l2.
Proof.
  induction l1 as [|a l1 IH]; [reflexivity |].
  cbn [app]. destruct l1 as [|b l1].
  - cbn [app String.concat]. destruct l2; [now rewrite append_empty_r |].
    reflexivity.
  - cbn [app String.concat] in IH |- *. rewrite IH.
    now rewrite !append_assoc.
Qed.

Lemma foreign_key_clauses_app (f1 f2 : list (string * string)) :
  foreign_key_clauses C (f1 ++ f2) =
    foreign_key_clauses C f1 +:+ foreign_key_clauses C f2.
Proof. unfold foreign_key_clauses. now rewrite map_app, concat_app. Qed.

(** What one step of the loop adds: one column text and the primary keys
    [p]; among the foreign keys only the entry of the attribute changes. *)
Lemma scan_attribute_adds (st st' : columnScan) (attr dataType : string) :
  scan_attribute C st attr dataType = Some st' ->
  exists a p,
    attrStr st' = attrStr st ++ [a] /\
    primaryKeys st' = primaryKeys st ++ p /\
    (forall k, k <> attr ->
       obj_get (foreignKeys st') k = obj_get (foreignKeys st) k).
Proof.
  unfold scan_attribute. intros H.
  assert (Hother : forall m k, k <> attr ->
    obj_get (JsObject.assign (foreignKeys st) attr m) k =
    obj_get (foreignKeys st) k).
  { intros m k Hk. rewrite obj_get_assign.
    destruct (String.eqb attr "__proto__"); [reflexivity |].
    destruct (String.eqb_spec attr k) as [->|_]; [contradiction | reflexivity]. }
  destruct (includes dataType "PRIMARY KEY"),
           (includes dataType "REFERENCES");
    [destruct (match_references dataType) as [[m1 m2]|]; [|discriminate]
    | | destruct (match_references dataType) as [[m1 m2]|]; [|discriminate]
    | ];
    injection H as <-; cbn [attrStr primaryKeys foreignKeys].
  - eexists _, [attr]. eauto.
  - eexists _, [attr]. eauto.
  - eexists _, []. rewrite app_nil_r. eauto.
  - eexists _, []. rewrite app_nil_r. eauto.
Qed.

Lemma scan_attributes_app (object l1 l2 : list (string * string))
    (st : columnScan) :
  scan_attributes C object st (l1 ++ l2) =
    match scan_attributes C object st l1 with
    | Some st1 => scan_attributes C object st1 l2
    | None => None
    end.
Proof.
  revert st. induction l1 as [|[attr dataType] l1 IH]; intros st; [reflexivity |].
  cbn [app scan_attributes].
  destruct (JsObject.hasOwnProperty object attr) as [[|]|];
    [|apply IH | reflexivity].
  destruct (scan_attribute C st attr dataType); [apply IH | reflexivity].
Qed.

Lemma scan_attribute_total (st : columnScan) (attr dataType : string) :
  splittable dataType -> is_Some (scan_attribute C st attr dataType).
Proof.
  unfold splittable, scan_attribute. intros H.
  destruct (includes dataType "PRIMARY KEY"),
           (includes dataType "REFERENCES");
    try (destruct (H eq_refl) as [[m1 m2] ->]); eexists; reflexivity.
Qed.

(** *** The loop over an object without a property [hasOwnProperty] *)

Section Loop.

Variable object : list (string * string).

Hypothesis method : "hasOwnProperty" ∉ object.*1.

Lemma scan_attributes_cons (st : columnScan) (attr dataType : string)
    (rest : list (string * string)) :
  own object ((attr, dataType) :: rest) ->
  scan_attributes C object st ((attr, dataType) :: rest) =
    match scan_attribute C st attr dataType with
    | Some st' => scan_attributes C object st' rest
    | None => None
    end.
Proof.
  intros Hown. apply Forall_cons in Hown as [Hattr _]. cbn [fst] in Hattr.
  cbn [scan_attributes]. now rewrite (hasOwnProperty_own _ _ method Hattr).
Qed.

Lemma scan_attributes_add (attributes : list (string * string)) :
  forall st st',
    own object attributes ->
    scan_attributes C object st attributes = Some st' ->
    exists a p,
      attrStr st' = attrStr st ++ a /\
      primaryKeys st' = primaryKeys st ++ p /\
      length a = length attributes /\
      (forall k, k ∉ attributes.*1 ->
         obj_get (foreignKeys st') k = obj_get (foreignKeys st) k).
Proof.
  induction attributes as [|[attr dataType] rest IH]; intros st st' Hown H.
  - injection H as <-. exists [], []. rewrite !app_nil_r. repeat split.
  - rewrite scan_attributes_cons in H by exact Hown.
    apply Forall_cons in Hown as [_ Hown].
    destruct (scan_attribute C st attr dataType) as [st1|] eqn:E1;
      [|discriminate].
    destruct (scan_attribute_adds _ _ _ _ E1) as (a1 & p1 & Ha & Hp & Hf).
    destruct (IH st1 st' Hown H) as (a2 & p2 & Ha2 & Hp2 & Hlen & Hf2).
    exists (a1 :: a2), (p1 ++ p2).
    rewrite Ha2, Hp2, Ha, Hp, <- !app_assoc. cbn [app length].
    repeat split; [now rewrite Hlen |].
    intros k Hk. rewrite fmap_cons in Hk. cbn [fst] in Hk.
    apply not_elem_of_cons in Hk as [Hne Hk]. now rewrite Hf2, Hf.
Qed.

Lemma scan_attributes_total (attributes : list (string * string)) :
  own object attributes ->
  Forall (fun kv => splittable (snd kv)) attributes ->
  forall st, is_Some (scan_attributes C object st attributes).
Proof.
  intros Hown Hok. revert Hown.
  induction Hok as [|[attr dataType] rest Hok _ IH]; intros Hown st;
    [now eexists |].
  rewrite scan_attributes_cons by exact Hown.
  apply Forall_cons in Hown as [_ Hown].
  destruct (scan_attribute_total st attr dataType Hok) as [st1 ->].
  now apply IH.
Qed.

(** A column that mentions REFERENCES and that the pattern does not match
    makes the call raise, wherever it stands among the attributes. *)
Lemma scan_attributes_raises (attributes : list (string * string))
    (col dataType : string) :
  own object attributes ->
  (col, dataType) ∈ attributes ->
  includes dataType "REFERENCES" = true ->
  match_references dataType = None ->
  forall st, scan_attributes C object st attributes = None.
Proof.
  intros Hown Hin Href Hno.
  induction attributes as [|[attr ty] rest IH]; intros st.
  - now apply elem_of_nil in Hin.
  - rewrite scan_attributes_cons by exact Hown.
    apply Forall_cons in Hown as [_ Hown].
    apply elem_of_cons in Hin as [[= <- <-]|Hin].
    + unfold scan_attribute. rewrite Href, Hno.
      now destruct (includes dataType "PRIMARY KEY").
    + destruct (scan_attribute C st attr ty); [now apply IH | reflexivity].
Qed.

End Loop.

Lemma own_self (attributes : list (string * string)) :
  own attributes attributes.
Proof.
  unfold own. apply Forall_forall. intros [k v] Hin.
  apply list_elem_of_fmap. now exists (k, v).
Qed.

Lemma own_app (object l1 l2 : list (string * string)) :
  own object (l1 ++ l2) -> own object l1 /\ own object l2.
Proof. apply Forall_app. Qed.

(** A column named [hasOwnProperty] makes the first pass raise. *)
Lemma scan_attributes_hidden (object attributes : list (string * string))
    (st : columnScan) :
  "hasOwnProperty" ∈ object.*1 -> attributes <> [] ->
  scan_attributes C object st attributes = None.
Proof.
  intros Hin Hne. destruct attributes as [|[attr dataType] rest];
    [contradiction |].
  cbn [scan_attributes]. now rewrite hasOwnProperty_hidden.
Qed.

Lemma hidden_or_not (attributes : list (string * string)) :
  "hasOwnProperty" ∈ attributes.*1 \/ "hasOwnProperty" ∉ attributes.*1.
Proof.
  destruct (obj_get attributes "hasOwnProperty") eqn:E.
  - left. apply obj_get_elem in E. apply list_elem_of_fmap.
    eexists (_, _). split; [|exact E]. reflexivity.
  - right. now apply obj_get_none.
Qed.

Lemma createTableQuery_raises (tableName : tableName)
    (attributes : list (string * string)) (col dataType : string)
    (options : createTableOptions) :
  (col, dataType) ∈ attributes ->
  includes dataType "REFERENCES" = true ->
  match_references dataType = None ->
  createTableQuery C tableName attributes options = None.
Proof.
  intros Hin Href Hno. unfold createTableQuery.
  destruct (hidden_or_not attributes) as [Hhidden|Hmethod].
  - rewrite scan_attributes_hidden; [reflexivity | assumption |].
    intros ->. now apply elem_of_nil in Hin.
  - now rewrite (scan_attributes_raises attributes Hmethod attributes col
                   dataType (own_self attributes)).
Qed.

(** C1, as amended: let [attributes] be an object (its names are distinct)
    without a column named [hasOwnProperty]; let a column, not named
    [__proto__], have for raw type [pre REFERENCES post] on a single line,
    with [pre] not empty, 'PRIMARY KEY' somewhere in the type, no further
    ' REFERENCES' in [post], and no REFERENCES in [pre] once its first
    'PRIMARY KEY' is removed; let every other column that mentions
    REFERENCES be one that the pattern splits, and the quoted column name be
    non-empty.  Then the statement is generated; the inline definition of
    the column is the quoted name, a space and [pre] without its first
    'PRIMARY KEY', which holds no REFERENCES; the column is in the trailing
    [PRIMARY KEY (...)] clause; and the text from REFERENCES onward is in a
    trailing [, FOREIGN KEY (col) REFERENCES...] clause. *)
Theorem createTableQuery_primary_key_references (tableName : tableName)
    (before after : list (string * string)) (col pre post : string)
    (options : createTableOptions) :
  let dataType := pre +:+ " REFERENCES" +:+ post in
  let attributes := before ++ (col, dataType) :: after in
  NoDup attributes.*1 ->
  "hasOwnProperty" ∉ attributes.*1 ->
  col <> "__proto__" ->
  includes dataType "PRIMARY KEY" = true ->
  pre <> "" ->
  single_line dataType = true ->
  includes post " REFERENCES" = false ->
  includes (replace_first "PRIMARY KEY" "" pre) "REFERENCES" = false ->
  Forall (fun kv => splittable (snd kv)) (before ++ after) ->
  quoteIdentifier C col <> "" ->
  exists definition columns_before columns_after pk_before pk_after
         fk_before fk_after,
    definition = replace_first "PRIMARY KEY" "" pre /\
    includes definition "REFERENCES" = false /\
    length columns_before = length before /\
    length columns_after = length after /\
    createTableQuery C tableName attributes options =
      Some (trim ("CREATE TABLE IF NOT EXISTS " +:+ quoteTable C tableName +:+
                  " (" +:+
                  join ", "
                    (columns_before ++
                     [quoteIdentifier C col +:+ " " +:+ definition] ++
                     columns_after) +:+
                  unique_clauses C tableName (ct_uniqueKeys options) +:+
                  ", PRIMARY KEY (" +:+
                  join ", "
                    (map (quoteIdentifier C) (pk_before ++ [col] ++ pk_after))
                  +:+ ")" +:+
                  foreign_key_clauses C fk_before +:+
                  ", FOREIGN KEY (" +:+ quoteIdentifier C col +:+
                  ") REFERENCES" +:+ post +:+
                  foreign_key_clauses C fk_after +:+
                  ")" +:+ table_suffix C options) +:+ ";").
Proof.
  intros dataType attributes Hnd Hmethod Hproto Hpk Hpre Hline Hpost Hinline
    Hothers Hq.
  pose proof (own_self attributes) as Hown. subst attributes.
  set (object := before ++ (col, dataType) :: after) in *.
  apply own_app in Hown as [Hown1 Hown2].
  pose proof Hown2 as Hown3. apply Forall_cons in Hown3 as [_ Hown3].
  unfold object in Hnd. rewrite fmap_app, fmap_cons in Hnd. cbn [fst] in Hnd.
  apply NoDup_app in Hnd as (_ & _ & Hnd2).
  apply NoDup_cons in Hnd2 as [Hcol2 _].
  apply Forall_app in Hothers as [Hbefore Hafter].
  assert (Href : includes dataType "REFERENCES" = true).
  { unfold dataType.
    change (" REFERENCES" +:+ post) with (" " +:+ "REFERENCES" +:+ post).
    rewrite <- append_assoc. apply includes_middle. }
  (* the columns before *)
  destruct (scan_attributes_total object Hmethod before Hown1 Hbefore
              empty_scan) as [st1 E1].
  destruct (scan_attributes_add object Hmethod before _ _ Hown1 E1) as
    (a1 & p1 & Ha1 & Hp1 & Hlen1 & _).
  cbn [empty_scan attrStr primaryKeys app] in Ha1, Hp1.
  (* the column itself *)
  pose (st2 := {| primaryKeys := p1 ++ [col];
                  attrStr := a1 ++ [quoteIdentifier C col +:+ " " +:+
                                    replace_first "PRIMARY KEY" "" pre];
                  foreignKeys :=
                    JsObject.assign (foreignKeys st1) col
                      ("REFERENCES" +:+ post) |}).
  assert (E2 : scan_attribute C st1 col dataType = Some st2).
  { unfold scan_attribute. rewrite Hpk, Href.
    unfold dataType. rewrite match_references_split by assumption.
    now rewrite Ha1, Hp1. }
  (* the columns after *)
  destruct (scan_attributes_total object Hmethod after Hown3 Hafter st2)
    as [st3 E3].
  destruct (scan_attributes_add object Hmethod after _ _ Hown3 E3) as
    (a3 & p3 & Ha3 & Hp3 & Hlen3 & Hf3).
  cbn [st2 attrStr primaryKeys foreignKeys] in Ha3, Hp3, Hf3.
  (* the entry of the column is among the foreign keys *)
  assert (Hfk : (col, "REFERENCES" +:+ post) ∈ foreignKeys st3).
  { apply obj_get_elem. rewrite (Hf3 col Hcol2), obj_get_assign.
    destruct (String.eqb_spec col "__proto__") as [|_]; [contradiction |].
    now rewrite String.eqb_refl. }
  apply list_elem_of_split in Hfk as (f1 & f3 & Hf).
  exists (replace_first "PRIMARY KEY" "" pre), a1, a3, p1, p3, f1, f3.
  split; [reflexivity |]. split; [exact Hinline |].
  split; [exact Hlen1 |]. split; [exact Hlen3 |].
  unfold createTableQuery. fold object. unfold object at 2.
  rewrite scan_attributes_app, E1.
  rewrite (scan_attributes_cons object Hmethod) by exact Hown2.
  rewrite E2, E3.
  do 3 f_equal. unfold table_body, primary_key_clause.
  rewrite Ha3, Hp3, Hf, <- !app_assoc.
  rewrite map_app. cbn [map app].
  rewrite (join_not_empty ", " _ _ _ Hq).
  change ((col, "REFERENCES" +:+ post) :: f3)
    with ([(col, "REFERENCES" +:+ post)] ++ f3).
  rewrite !foreign_key_clauses_app.
  unfold foreign_key_clauses at 2. cbn [map String.concat].
  unfold foreign_key_clause. cbn [fst snd].
  rewrite !append_assoc. reflexivity.
Qed.

End CreateTableQuery.

Import JsString.

(** The example of the specification, run. *)
Lemma createTableQuery_example :
  createTableQuery Reference.collaborators (TName "users")
    [("id", "INTEGER PRIMARY KEY REFERENCES other (id)")]
    no_createTableOptions =
    Some ("CREATE TABLE IF NOT EXISTS `users` (`id` INTEGER , " +:+
          "PRIMARY KEY (`id`), FOREIGN KEY (`id`) REFERENCES other (id)) " +:+
          "ENGINE=InnoDB;").
Proof. reflexivity. Qed.

(** The theorem at the example of the specification: a table with the one
    column [id], of type [INTEGER PRIMARY KEY REFERENCES other (id)]. *)
Lemma createTableQuery_primary_key_references_example :
  exists definition columns_before columns_after pk_before pk_after
         fk_before fk_after,
    definition = replace_first "PRIMARY KEY" "" "INTEGER PRIMARY KEY" /\
    includes definition "REFERENCES" = false /\
    length columns_before = 0 /\
    length columns_after = 0 /\
    createTableQuery Reference.collaborators (TName "users")
      [("id", "INTEGER PRIMARY KEY REFERENCES other (id)")]
      no_createTableOptions =
      Some (trim ("CREATE TABLE IF NOT EXISTS " +:+
                  quoteTable Reference.collaborators (TName "users") +:+
                  " (" +:+
                  join ", "
                    (columns_before ++
                     [quoteIdentifier Reference.collaborators "id" +:+ " " +:+
                      definition] ++
                     columns_after) +:+
                  unique_clauses Reference.collaborators (TName "users")
                    (ct_uniqueKeys no_createTableOptions) +:+
                  ", PRIMARY KEY (" +:+
                  join ", "
                    (map (quoteIdentifier Reference.collaborators)
                       (pk_before ++ ["id"] ++ pk_after))
                  +:+ ")" +:+
                  foreign_key_clauses Reference.collaborators fk_before +:+
                  ", FOREIGN KEY (" +:+
                  quoteIdentifier Reference.collaborators "id" +:+
                  ") REFERENCES" +:+ " other (id)" +:+
                  foreign_key_clauses Reference.collaborators fk_after +:+
                  ")" +:+ table_suffix Reference.collaborators
                            no_createTableOptions) +:+ ";").
Proof.
  apply (createTableQuery_primary_key_references Reference.collaborators
           (TName "users") [] [] "id" "INTEGER PRIMARY KEY" " other (id)"
           no_createTableOptions).
  - apply NoDup_singleton.
  - intros H. apply list_elem_of_singleton in H. discriminate.
  - discriminate.
  - reflexivity.
  - discriminate.
  - reflexivity.
  - reflexivity.
  - reflexivity.
  - constructor.
  - discriminate.
Defined.

(** C1, as stated, fails.  The first type holds both 'PRIMARY KEY' and
    'REFERENCES', the pattern does not match it, and the call raises instead
    of returning a statement.  In the second type the table referred to has
    REFERENCES in its name: the split is at the last ' REFERENCES', and the
    REFERENCES keyword stays in the inline definition of the column. *)
Lemma createTableQuery_unmatched_references :
  includes two_line_type "PRIMARY KEY" = true /\
  includes two_line_type "REFERENCES" = true /\
  createTableQuery Reference.collaborators (TName "users")
    [("id", two_line_type)] no_createTableOptions = None /\
  createTableQuery Reference.collaborators (TName "users")
    [("id", "INTEGER PRIMARY KEY REFERENCES `my REFERENCES` (`id`)")]
    no_createTableOptions =
    Some ("CREATE TABLE IF NOT EXISTS `users` " +:+
          "(`id` INTEGER  REFERENCES `my, PRIMARY KEY (`id`), " +:+
          "FOREIGN KEY (`id`) REFERENCES` (`id`)) ENGINE=InnoDB;").
Proof. repeat split. Qed.

(** ** More facts about the patterns *)

Section PatternFacts.

Import JsString.

Lemma last_references_present (s : string) :
  last_references s = None -> includes s " REFERENCES" = false.
Proof.
  induction s as [|c s IH]; [reflexivity |].
  cbn [last_references]. destruct (last_references s) as [[a b]|].
  - discriminate.
  - destruct (startsWith " REFERENCES" (String c s)) eqn:E; [discriminate |].
    intros _. cbn [includes]. now rewrite E, IH.
Qed.

Lemma last_references_sound (s a b : string) :
  last_references s = Some (a, b) ->
  s = a +:+ " " +:+ b /\ startsWith "REFERENCES" b = true /\
  includes b " REFERENCES" = false.
Proof.
  revert a b. induction s as [|c s IH]; intros a b; [discriminate |].
  cbn [last_references]. destruct (last_references s) as [[a' b']|] eqn:E.
  - intros [= <- <-]. destruct (IH _ _ eq_refl) as (-> & H1 & H2).
    repeat split; assumption.
  - destruct (startsWith " REFERENCES" (String c s)) eqn:Es; [|discriminate].
    intros [= <- <-]. cbn [startsWith] in Es.
    destruct (Ascii.eqb_spec " " c) as [<-|]; [|discriminate].
    repeat split; [exact Es |].
    apply last_references_present in E. exact E.
Qed.

Lemma replace_first_absent (pat rep s : string) :
  includes s pat = false -> replace_first pat rep s = s.
Proof.
  induction s as [|c s IH]; intros H.
  - cbn in *. now rewrite orb_false_r in H; rewrite H.
  - pose proof (includes_head _ _ H) as Hh. apply includes_tail in H.
    cbn [replace_first]. rewrite Hh. now rewrite IH.
Qed.

End PatternFacts.

(** ** createTableQuery: errors, plain columns, unique keys *)

Section CreateTableMore.

Variable C : Collaborators.

Import JsString.

Lemma scan_attribute_none (st : columnScan) (attr dataType : string) :
  scan_attribute C st attr dataType = None ->
  includes dataType "REFERENCES" = true /\ match_references dataType = None.
Proof.
  unfold scan_attribute.
  destruct (includes dataType "PRIMARY KEY"),
           (includes dataType "REFERENCES");
    try discriminate;
    destruct (match_references dataType) as [[m1 m2]|]; try discriminate;
    now split.
Qed.

Lemma scan_attributes_none (object attributes : list (string * string)) :
  forall st,
    scan_attributes C object st attributes = None ->
    "hasOwnProperty" ∈ object.*1 \/
    exists col dataType,
      (col, dataType) ∈ attributes /\
      includes dataType "REFERENCES" = true /\
      match_references dataType = None.
Proof.
  induction attributes as [|[attr ty] rest IH]; intros st H; [discriminate |].
  cbn [scan_attributes] in H.
  assert (Hrest : forall st1, scan_attributes C object st1 rest = None ->
    "hasOwnProperty" ∈ object.*1 \/
    exists col dataType,
      (col, dataType) ∈ (attr, ty) :: rest /\
      includes dataType "REFERENCES" = true /\
      match_references dataType = None).
  { intros st1 H1. destruct (IH st1 H1) as [Hm|(col & dataType & Hin & Hbad)];
      [now left |].
    right. exists col, dataType. split; [now right | exact Hbad]. }
  destruct (JsObject.hasOwnProperty object attr) as [[|]|] eqn:Ecall.
  - destruct (scan_attribute C st attr ty) as [st1|] eqn:E;
      [now apply Hrest with st1 |].
    apply scan_attribute_none in E. right. exists attr, ty.
    split; [left | exact E].
  - now apply Hrest with st.
  - left. destruct (hidden_or_not object) as [Hm|Hm]; [exact Hm |].
    unfold JsObject.hasOwnProperty in Ecall. apply obj_get_none in Hm.
    rewrite Hm in Ecall. discriminate.
Qed.

(** X1: [createTableQuery] raises in two cases only: a column is named
    [hasOwnProperty], which hides the method that the loop calls, or some
    column mentions REFERENCES in a way that the pattern does not match.
    Every other table gets its statement. *)
Theorem createTableQuery_raises_iff (tableName : tableName)
    (attributes : list (string * string)) (options : createTableOptions) :
  createTableQuery C tableName attributes options = None <->
  "hasOwnProperty" ∈ attributes.*1 \/
  exists col dataType,
    (col, dataType) ∈ attributes /\
    includes dataType "REFERENCES" = true /\
    match_references dataType = None.
Proof.
  split.
  - unfold createTableQuery.
    destruct (scan_attributes C attributes empty_scan attributes) eqn:E;
      [discriminate |].
    intros _. exact (scan_attributes_none _ _ _ E).
  - intros [Hm|(col & dataType & Hin & Href & Hno)].
    + unfold createTableQuery.
      rewrite scan_attributes_hidden; [reflexivity | exact Hm |].
      intros ->. now apply elem_of_nil in Hm.
    + exact (createTableQuery_raises C tableName attributes col dataType
               options Hin Href Hno).
Qed.

Lemma scan_attributes_plain (object attributes : list (string * string)) :
  "hasOwnProperty" ∉ object.*1 ->
  own object attributes ->
  Forall (fun kv => includes (snd kv) "REFERENCES" = false) attributes ->
  forall st,
    scan_attributes C object st attributes =
      Some {| primaryKeys := primaryKeys st ++ primary_key_columns attributes;
              foreignKeys := foreignKeys st;
              attrStr := attrStr st ++
                map (fun kv => quoteIdentifier C (fst kv) +:+ " " +:+
                               replace_first "PRIMARY KEY" "" (snd kv))
                    attributes |}.
Proof.
  intros Hmethod Hown Hplain. revert Hown.
  induction Hplain as [|[attr ty] rest Hty _ IH]; intros Hown st.
  - cbn. rewrite !app_nil_r. now destruct st.
  - rewrite (scan_attributes_cons C object Hmethod) by exact Hown.
    apply Forall_cons in Hown as [_ Hown].
    cbn [primary_key_columns map fst snd] in *.
    unfold scan_attribute. rewrite Hty.
    destruct (includes ty "PRIMARY KEY") eqn:Epk; rewrite (IH Hown); cbn;
      rewrite <- ?app_assoc; try reflexivity.
    now rewrite (replace_first_absent _ _ _ Epk).
Qed.

(** X2: a table without a column named [hasOwnProperty], none of whose
    columns mentions REFERENCES: the call returns, every column keeps its
    definition inline without its first 'PRIMARY KEY', the columns that had
    one are listed, in order, in the one trailing PRIMARY KEY clause, and
    there is no FOREIGN KEY clause. *)
Theorem createTableQuery_without_references (tableName : tableName)
    (attributes : list (string * string)) (options : createTableOptions) :
  "hasOwnProperty" ∉ attributes.*1 ->
  Forall (fun kv => includes (snd kv) "REFERENCES" = false) attributes ->
  createTableQuery C tableName attributes options =
    Some (trim ("CREATE TABLE IF NOT EXISTS " +:+ quoteTable C tableName +:+
                " (" +:+
                join ", "
                  (map (fun kv => quoteIdentifier C (fst kv) +:+ " " +:+
                                  replace_first "PRIMARY KEY" "" (snd kv))
                       attributes) +:+
                unique_clauses C tableName (ct_uniqueKeys options) +:+
                primary_key_clause C (primary_key_columns attributes) +:+
                ")" +:+ table_suffix C options) +:+ ";").
Proof.
  intros Hmethod H. unfold createTableQuery.
  rewrite (scan_attributes_plain attributes attributes Hmethod
             (own_self attributes) H).
  cbn [empty_scan app].
  unfold table_body. cbn [attrStr primaryKeys foreignKeys].
  unfold foreign_key_clauses. cbn [map String.concat].
  now rewrite !append_assoc, ?append_empty_r.
Qed.

Lemma unique_clauses_single_fields (tableName : tableName)
    (l : list (option string * uniqueKey)) :
  Forall (fun entry => uk_singleField (snd entry) = true) l ->
  unique_clauses C tableName (Some l) = "".
Proof.
  unfold unique_clauses. induction 1 as [|[name uk] rest Huk _ IH];
    [reflexivity |].
  cbn [map]. cbn [snd] in Huk. unfold unique_clause at 1. rewrite Huk.
  destruct (map (unique_clause C tableName) rest); [reflexivity |].
  cbn [String.concat] in *. exact IH.
Qed.

(** X3: unique keys on a single field are left to the column definitions: a
    [uniqueKeys] option that holds nothing else changes no statement. *)
Theorem createTableQuery_single_field_unique_keys (tableName : tableName)
    (attributes : list (string * string)) (options : createTableOptions)
    (uniqueKeys : list (option string * uniqueKey)) :
  Forall (fun entry => uk_singleField (snd entry) = true) uniqueKeys ->
  createTableQuery C tableName attributes
    (with_uniqueKeys options (Some uniqueKeys)) =
  createTableQuery C tableName attributes (with_uniqueKeys options None).
Proof.
  intros H. unfold createTableQuery, table_body.
  destruct (scan_attributes C attributes empty_scan attributes);
    [|reflexivity].
  cbn [with_uniqueKeys ct_uniqueKeys].
  now rewrite (unique_clauses_single_fields tableName uniqueKeys H).
Qed.

End CreateTableMore.

(** ** Where the REFERENCES text is cut *)

Section ReferencesCut.

Variable C : Collaborators.

Import JsString.

Lemma assign_empty {A} (k : string) (v : A) :
  k <> "__proto__" -> JsObject.assign [] k v = [(k, v)].
Proof.
  intros Hk. unfold JsObject.assign.
  destruct (String.eqb_spec k "__proto__") as [|_]; [contradiction |].
  cbn [obj_get]. now destruct (JsObject.array_index k).
Qed.

(** X4: a column with REFERENCES and without 'PRIMARY KEY', not named
    [__proto__], alone in its table: whenever the statement is generated,
    the inline text [m1] and the moved clause [m2] are the type cut at its
    last ' REFERENCES': put together with the space between them they give
    the type back, [m2] begins with REFERENCES and holds no further
    ' REFERENCES'. *)
Theorem createTableQuery_references_recompose (tableName : tableName)
    (col dataType sql : string) (options : createTableOptions) :
  col <> "__proto__" ->
  includes dataType "PRIMARY KEY" = false ->
  includes dataType "REFERENCES" = true ->
  createTableQuery C tableName [(col, dataType)] options = Some sql ->
  exists m1 m2,
    dataType = m1 +:+ " " +:+ m2 /\
    m1 <> "" /\
    startsWith "REFERENCES" m2 = true /\
    includes m2 " REFERENCES" = false /\
    sql = trim ("CREATE TABLE IF NOT EXISTS " +:+ quoteTable C tableName +:+
                " (" +:+ quoteIdentifier C col +:+ " " +:+ m1 +:+
                unique_clauses C tableName (ct_uniqueKeys options) +:+
                ", FOREIGN KEY (" +:+ quoteIdentifier C col +:+ ") " +:+ m2 +:+
                ")" +:+ table_suffix C options) +:+ ";".
Proof.
  intros Hproto Hpk Href. unfold createTableQuery. cbn [scan_attributes].
  unfold JsObject.hasOwnProperty. cbn [obj_get].
  destruct (String.eqb col "hasOwnProperty"); [discriminate |].
  rewrite String.eqb_refl.
  unfold scan_attribute. rewrite Hpk, Href. unfold match_references.
  destruct (single_line dataType); [|discriminate].
  destruct (last_references dataType) as [[[|c a] b]|] eqn:E; try discriminate.
  intros [= <-]. apply last_references_sound in E as (Hs & Hb & Hlast).
  exists (String c a), b. repeat split; try assumption; [discriminate |].
  unfold table_body, primary_key_clause, foreign_key_clauses, foreign_key_clause.
  cbn [empty_scan attrStr primaryKeys foreignKeys app].
  rewrite (assign_empty col b Hproto).
  cbn [map join String.concat fst snd is_empty].
  now rewrite !append_assoc.
Qed.

Lemma startsWith_within (p a b : string) :
  String.length p <= String.length a ->
  startsWith p (a +:+ b) = startsWith p a.
Proof.
  revert a. induction p as [|x p IH]; intros a Hlen; [reflexivity |].
  destruct a as [|y a]; [cbn in Hlen; lia |].
  cbn [String.append startsWith]. cbn in Hlen.
  destruct (Ascii.eqb x y); [apply IH; lia | reflexivity].
Qed.

Lemma length_append (a b : string) :
  String.length (a +:+ b) = String.length a + String.length b.
Proof. induction a as [|x a IH]; [reflexivity |]. cbn. now rewrite IH. Qed.

(** The lazy run stops at the first REFERENCES that follows at least one
    character. *)
Lemma lazy_until_references_first (pre post : string) :
  pre <> "" ->
  single_line pre = true ->
  includes (pre +:+ "REFERENCE") "REFERENCES" = false ->
  lazy_until_references (pre +:+ "REFERENCES" +:+ post) =
    Some ("REFERENCES" +:+ post).
Proof.
  induction pre as [|c pre IH]; intros Hne Hline Hfirst; [contradiction |].
  cbn [single_line] in Hline. apply andb_true_iff in Hline as [Hc Hline].
  apply negb_true_iff in Hc.
  change (String c pre +:+ "REFERENCES" +:+ post)
    with (String c (pre +:+ "REFERENCES" +:+ post)).
  cbn [lazy_until_references]. rewrite Hc.
  destruct pre as [|d pre].
  - reflexivity.
  - cbn [String.append] in Hfirst. apply includes_tail in Hfirst.
    assert (Hhere : startsWith "REFERENCES"
                      (String d pre +:+ "REFERENCES" +:+ post) = false).
    { change ("REFERENCES" +:+ post) with ("REFERENCE" +:+ "S" +:+ post).
      rewrite <- append_assoc, startsWith_within.
      - now apply includes_head.
      - rewrite length_append. cbn. lia. }
    rewrite Hhere. apply IH; [discriminate | assumption | assumption].
Qed.

Lemma strip_before_references_unfold (s : string) :
  strip_before_references s =
    match lazy_until_references s with
    | Some rest => rest
    | None => match s with
              | EmptyString => EmptyString
              | String c t => String c (strip_before_references t)
              end
    end.
Proof. destruct s; reflexivity. Qed.

(** X5: [changeColumnQuery] cuts a definition at its first REFERENCES: for a
    single-line definition whose first REFERENCES comes after some text
    [pre], the constraint entry carries everything from that REFERENCES
    on, and nothing of [pre]. *)
Theorem changeColumnQuery_first_references (tableName : tableName)
    (attributeName pre post : string) :
  pre <> "" ->
  single_line pre = true ->
  includes (pre +:+ "REFERENCE") "REFERENCES" = false ->
  changeColumnQuery C tableName
    [(attributeName, pre +:+ "REFERENCES" +:+ post)] =
    "ALTER TABLE " +:+ quoteTable C tableName +:+ " ADD CONSTRAINT " +:+
    quoteIdentifier C (attributeName +:+ "_foreign_idx") +:+
    " FOREIGN KEY (" +:+ quoteIdentifier C attributeName +:+ ") REFERENCES" +:+
    post +:+ ";".
Proof.
  intros Hne Hline Hfirst.
  rewrite changeColumnQuery_constraint by apply includes_middle.
  rewrite strip_before_references_unfold.
  rewrite (lazy_until_references_first pre post) by assumption.
  now rewrite !append_assoc.
Qed.





End ReferencesCut.

(** ** The options objects, once more *)

Section OptionsAgain.

Variable C : Collaborators.

Import JsString.

(** X7: [deleteQuery] is idempotent on the caller's options: a second call with
    the object that the first call left behind returns the same SQL and
    leaves the object as it is. *)
Theorem deleteQuery_idempotent (tableName : tableName) (where_ : value)
    (options : option (gmap string value)) :
  deleteQuery C tableName where_
    (snd (deleteQuery C tableName where_ options)) =
  deleteQuery C tableName where_ options.
Proof.
  destruct options as [opts|]; [|reflexivity].
  assert (Hv : opts !! "truncate" = Some (VBool true) \/
               opts !! "truncate" <> Some (VBool true)).
  { destruct (opts !! "truncate") as [[| |[]| | | |]|];
      try (right; discriminate). now left. }
  destruct Hv as [Htr|Htr].
  - unfold deleteQuery. cbn [from_option id]. rewrite Htr. cbn [snd].
    cbn [from_option id]. now rewrite Htr.
  - rewrite (deleteQuery_not_truncate C tableName where_ (Some opts))
      by assumption.
    cbn [snd from_option id].
    destruct (isUndefined (default VUndefined (opts !! "limit"))) eqn:Eu.
    + rewrite deleteQuery_not_truncate
        by (cbn [from_option id]; rewrite lookup_insert_ne by discriminate;
            assumption).
      cbn [from_option id]. unfold effective_limit.
      rewrite lookup_insert_eq. cbn [from_option id isUndefined].
      destruct (opts !! "limit") as [[]|]; try discriminate; reflexivity.
    + rewrite deleteQuery_not_truncate by assumption.
      cbn [from_option id]. now rewrite Eu.
Qed.

(** X8: [upsertQuery] resets [options.onDuplicate] before it appends to it:
    whatever the caller's object held there has no part in the result. *)
Theorem upsertQuery_resets_onDuplicate (tableName : tableName)
    (insertValues updateValues : list (string * value)) (where_ : value)
    (rawAttributes : list (string * rawAttribute))
    (options : gmap string value) (previous : value) :
  upsertQuery C tableName insertValues updateValues where_ rawAttributes
    (<["onDuplicate" := previous]> options) =
  upsertQuery C tableName insertValues updateValues where_ rawAttributes
    options.
Proof.
  unfold upsertQuery. rewrite !lookup_insert_eq, !insert_insert_eq.
  reflexivity.
Qed.

End OptionsAgain.

(** ** Column statements *)

Section ColumnStatements.

Variable C : Collaborators.

Import JsString.

(** X9: renaming a column to its own name is a change of the column: for a
    definition without REFERENCES the two statements are the same. *)
Theorem renameColumnQuery_same_name (tableName : tableName)
    (attrName definition : string) :
  includes definition "REFERENCES" = false ->
  renameColumnQuery C tableName attrName [(attrName, definition)] =
  changeColumnQuery C tableName [(attrName, definition)].
Proof.
  intros H. rewrite changeColumnQuery_change by assumption.
  unfold renameColumnQuery, rename_entry. cbn [map join].
  now rewrite !append_assoc.
Qed.

(** X10: for a column with a foreign key, [addColumnQuery] renders the attribute
    as [attributeToSQL] does without options, with the constraint
    [key_foreign_idx] on the new column put in front of its [REFERENCES]. *)
Theorem addColumnQuery_names_the_constraint (table : tableName) (key : string)
    (dataType : attributeArg) (r : references) :
  key <> "" ->
  is_Some (a_references (normalize_attribute dataType)) ->
  a_references (formatReferences C (normalize_attribute dataType)) = Some r ->
  exists base refs,
    startsWith " REFERENCES " refs = true /\
    attributeToSQL C dataType None = Some (base +:+ refs) /\
    addColumnQuery C table key dataType =
      Some ("ALTER TABLE " +:+ quoteTable C table +:+ " ADD " +:+
            quoteIdentifier C key +:+ " " +:+ base +:+
            ", ADD CONSTRAINT " +:+ quoteIdentifier C (key +:+ "_foreign_idx") +:+
            " FOREIGN KEY (" +:+ quoteIdentifier C key +:+ ")" +:+ refs +:+ ";").
Proof.
  intros Hkey [r0 Hr0] Hr.
  set (a := normalize_attribute dataType) in *.
  exists (type_toString C (a_type a) +:+ not_null_clause a +:+
          auto_increment_clause a +:+ default_clause C a +:+
          unique_marker a +:+ primary_key_marker a +:+ after_clause C a).
  exists (" REFERENCES " +:+ quoteTable C (ref_model r) +:+ " (" +:+
          quoteIdentifier C (match some_truthy (ref_key r) with
                             | Some k => k
                             | None => "id"
                             end) +:+ ")" +:+
          match some_truthy (a_onDelete (formatReferences C a)) with
          | Some act => " ON DELETE " +:+ toUpperCase C act
          | None => EmptyString
          end +:+
          match some_truthy (a_onUpdate (formatReferences C a)) with
          | Some act => " ON UPDATE " +:+ toUpperCase C act
          | None => EmptyString
          end).
  split; [reflexivity |].
  unfold addColumnQuery, attributeToSQL, references_clause. fold a.
  rewrite Hr0, Hr. cbn [ao_context ao_foreignKey some_truthy].
  rewrite (is_empty_false key Hkey).
  change (String.eqb "addColumn" "addColumn") with true. cbv iota.
  split; f_equal; rewrite !append_assoc; reflexivity.
Qed.

End ColumnStatements.

(** ** attributesToSQL and findAutoIncrementField *)

Section AttributesToSQL.

Variable C : Collaborators.

Import JsString.

Lemma attributesToSQL_fresh (attributes : list (string * attribute))
    (options : option attributeOptions) :
  forall result : list (string * string),
    NoDup (result.*1 ++ map (fun ka => result_key ka.1 ka.2) attributes) ->
    Forall (fun ka => JsObject.ordinary (result_key ka.1 ka.2) = true)
           attributes ->
    attributesToSQL C attributes options result =
      match rendered_entries C attributes options with
      | Some entries => Some (result ++ entries)
      | None => None
      end.
Proof.
  induction attributes as [|[key a] rest IH]; intros result Hnd Hord.
  - cbn. now rewrite app_nil_r.
  - cbn [attributesToSQL rendered_entries map fst snd] in *.
    destruct (attributeToSQL C (PlainAttribute a) options) as [sql|];
      [|reflexivity].
    fold (result_key key a).
    apply Forall_cons in Hord as [Hkey_ord Hord]. cbn [fst snd] in Hkey_ord.
    apply NoDup_app in Hnd as (Hres & Hdisj & Hrest).
    apply NoDup_cons in Hrest as [Hkey Hrest].
    assert (Hfresh : result_key key a ∉ result.*1).
    { intros Hin. apply (Hdisj _ Hin). left. }
    rewrite assign_fresh by assumption. rewrite IH.
    + destruct (rendered_entries C rest options); [|reflexivity].
      now rewrite <- app_assoc.
    + rewrite fmap_app. cbn [fmap list_fmap fst]. rewrite <- app_assoc.
      cbn [app]. apply NoDup_app. split; [assumption |]. split.
      * intros x Hx Hin. apply elem_of_cons in Hin as [->|Hin];
          [contradiction |]. apply (Hdisj _ Hx). now right.
      * now apply NoDup_cons.
    + exact Hord.
Qed.

(** X11: when no two attributes are stored under the same name, and no name
    is [__proto__] or an array index, the result of [attributesToSQL] has
    one entry per attribute, in the order of the attributes: the name is
    [field], or the key when there is no [field], and the text is what
    [attributeToSQL] gives.  It raises when [attributeToSQL] raises on one
    of them. *)
Theorem attributesToSQL_distinct_names (attributes : list (string * attribute))
    (options : option attributeOptions) :
  NoDup (map (fun ka => result_key ka.1 ka.2) attributes) ->
  Forall (fun ka => JsObject.ordinary (result_key ka.1 ka.2) = true)
         attributes ->
  attributesToSQL C attributes options [] =
    rendered_entries C attributes options.
Proof.
  intros Hnd Hord. rewrite attributesToSQL_fresh by assumption.
  now destruct (rendered_entries C attributes options).
Qed.

Lemma attributesToSQL_lookup (attributes : list (string * attribute))
    (options : option attributeOptions) :
  forall result final : list (string * string),
    attributesToSQL C attributes options result = Some final ->
    exists entries,
      rendered_entries C attributes options = Some entries /\
      forall name,
        obj_get final name =
          if String.eqb name "__proto__" then obj_get result name
          else
            match last_entry entries name with
            | Some sql => Some sql
            | None => obj_get result name
            end.
Proof.
  induction attributes as [|[key a] rest IH]; intros result final H.
  - cbn in H. injection H as <-. exists []. split; [reflexivity |].
    intros name. cbn. now destruct (String.eqb name "__proto__").
  - cbn [attributesToSQL rendered_entries] in *.
    destruct (attributeToSQL C (PlainAttribute a) options) as [sql|];
      [|discriminate].
    fold (result_key key a) in H.
    apply IH in H as (entries & -> & Hlook).
    eexists. split; [reflexivity |]. intros name. rewrite Hlook.
    unfold last_entry. cbn [rev]. rewrite obj_get_app, obj_get_assign.
    cbn [obj_get].
    destruct (String.eqb_spec name "__proto__") as [->|Hname].
    + destruct (String.eqb_spec (result_key key a) "__proto__") as [|Hne];
        [reflexivity |].
      destruct (String.eqb_spec (result_key key a) "__proto__");
        [contradiction | reflexivity].
    + destruct (obj_get (rev entries) name); [reflexivity |].
      destruct (String.eqb_spec (result_key key a) "__proto__") as [Hp|_].
      * destruct (String.eqb_spec (result_key key a) name) as [He|_];
          [congruence | reflexivity].
      * now destruct (String.eqb (result_key key a) name).
Qed.

(** X12: the result of [attributesToSQL] never has an own property
    [__proto__]; under every other name it holds the text of the last
    attribute stored under that name: when a [field] repeats a key or
    another [field], the later attribute wins, and no other name is
    present. *)
Theorem attributesToSQL_last_wins (attributes : list (string * attribute))
    (options : option attributeOptions) (final : list (string * string)) :
  attributesToSQL C attributes options [] = Some final ->
  exists entries,
    rendered_entries C attributes options = Some entries /\
    forall name,
      obj_get final name =
        if String.eqb name "__proto__" then None
        else last_entry entries name.
Proof.
  intros H. apply attributesToSQL_lookup in H as (entries & He & Hlook).
  exists entries. split; [assumption |]. intros name. rewrite Hlook.
  cbn [obj_get]. destruct (String.eqb name "__proto__"); [reflexivity |].
  now destruct (last_entry entries name).
Qed.

Lemma autoIncrement_fields_elem
    (object attributes : list (string * option attribute)) :
  forall (fields : list string) (name : string),
    autoIncrement_fields object attributes = Some fields ->
    name ∈ fields ->
    exists definition,
      (name, Some definition) ∈ attributes /\
      truthy (a_autoIncrement definition) = true.
Proof.
  induction attributes as [|[n d] rest IH]; intros fields name H Hin.
  - injection H as <-. now apply elem_of_nil in Hin.
  - cbn [autoIncrement_fields] in H.
    destruct (JsObject.hasOwnProperty object n) as [own|]; [|discriminate].
    destruct (autoIncrement_fields object rest) as [fields'|] eqn:E;
      [|discriminate].
    injection H as <-.
    assert (Hrest : name ∈ fields' ->
      exists definition,
        (name, Some definition) ∈ (n, d) :: rest /\
        truthy (a_autoIncrement definition) = true).
    { intros Hin'. destruct (IH fields' name eq_refl Hin') as (d' & Hd' & Ht).
      exists d'. split; [now right | exact Ht]. }
    destruct d as [d|]; [|now apply Hrest].
    destruct own; cbn [andb] in Hin; [|now apply Hrest].
    destruct (truthy (a_autoIncrement d)) eqn:Et; [|now apply Hrest].
    apply elem_of_cons in Hin as [->|Hin]; [|now apply Hrest].
    exists d. split; [left | exact Et].
Qed.

(** X14: every field that [findAutoIncrementField] returns has a definition
    that [attributeToSQL], whenever it renders it, marks with
    [auto_increment]. *)
Theorem findAutoIncrementField_rendered
    (attributes : list (string * option attribute))
    (fields : list string) (name : string) :
  findAutoIncrementField attributes = Some fields ->
  name ∈ fields ->
  exists definition,
    (name, Some definition) ∈ attributes /\
    forall options sql,
      attributeToSQL C (PlainAttribute definition) options = Some sql ->
      includes sql " auto_increment" = true.
Proof.
  intros H Hin.
  destruct (autoIncrement_fields_elem _ _ _ _ H Hin) as (d & Hd & Ht).
  exists d. split; [assumption |]. intros options sql.
  unfold attributeToSQL. cbn [normalize_attribute].
  destruct (references_clause C d options) as [refs|]; [|discriminate].
  intros [= <-]. unfold auto_increment_clause. rewrite Ht.
  rewrite <- (append_assoc (type_toString C (a_type d))).
  apply includes_middle.
Qed.

End AttributesToSQL.

(** ** whereItemQuery, the other branches *)

Section WhereItemQueryMore.

Variable C : Collaborators.

Import JsString.

(** X15: a value that is no plain object, or a column whose type is not JSON:
    the call goes, as it is, to the abstract predicate compiler. *)
Theorem whereItemQuery_delegates (key : string) (val : value)
    (options : whereOptions) :
  plain_column key options ->
  isPlainObject val = false \/
  instanceof_JSON
    (resolve_type (resolve_field C (KStr key) options) options) = false ->
  whereItemQuery C (KStr key) val options =
    Some (abstract_whereItemQuery C (KStr key) val options).
Proof.
  intros Hplain H. unfold whereItemQuery, whereItemQuery_body.
  rewrite rewrite_dotted_plain by assumption.
  destruct H as [H|H].
  - destruct val; try reflexivity. discriminate.
  - rewrite H. now destruct val.
Qed.

(** *** When it raises *)

Lemma rewrite_dotted_raises (key : string) (val : value)
    (fieldType : option dataType) (options : whereOptions) :
  rewrite_dotted C (KStr key) val fieldType options = None <->
  dotted_without_rawAttributes key options.
Proof.
  unfold rewrite_dotted, dotted_without_rawAttributes.
  destruct (o_model options) as [m|].
  - destruct (includes key ".").
    + destruct (rawAttributes m) as [attrs|] eqn:Er.
      * split.
        -- destruct (obj_get attrs _) as [f|]; [|discriminate].
           destruct (instanceof_JSON (ra_type f)); discriminate.
        -- intros (_ & m' & [= <-] & Hm). congruence.
      * split; [|reflexivity]. intros _. split; [reflexivity |]. now exists m.
    + split; [discriminate | intros [? _]; discriminate].
  - split; [discriminate | intros (_ & m & ? & _); discriminate].
Qed.

Lemma rewrite_dotted_key (key : string) (val : value)
    (fieldType : option dataType) (options : whereOptions)
    (key' : whereKey) (val' : value) (fieldType' : option dataType) :
  rewrite_dotted C (KStr key) val fieldType options =
    Some (key', val', fieldType') ->
  exists name,
    key' = KStr name /\
    forall v t, rewrite_dotted C (KStr name) v t (with_json_false options)
                <> None.
Proof.
  unfold rewrite_dotted. cbn [with_json_false o_model].
  destruct (o_model options) as [m|].
  - destruct (includes key ".") eqn:Ek.
    + destruct (rawAttributes m) as [attrs|]; [|discriminate].
      assert (Hsome : forall name v t,
        (if includes name "." then
           match obj_get attrs (hd EmptyString (split_char "." name)) with
           | Some f =>
               if instanceof_JSON (ra_type f) then
                 Some (KStr (match some_truthy (ra_field f) with
                             | Some n => n
                             | None => hd EmptyString (split_char "." name)
                             end),
                       dottie_set C (VObj []) (tl (split_char "." name)) v,
                       ra_type f)
               else Some (KStr name, v, t)
           | None => Some (KStr name, v, t)
           end
         else Some (KStr name, v, t)) <> None).
      { intros name v t. destruct (includes name "."); [|discriminate].
        destruct (obj_get attrs _) as [f|]; [|discriminate].
        destruct (instanceof_JSON (ra_type f)); discriminate. }
      destruct (obj_get attrs _) as [f|].
      * destruct (instanceof_JSON (ra_type f)); intros [= <- <- <-];
          eexists; (split; [reflexivity | apply Hsome]).
      * intros [= <- <- <-]. eexists. split; [reflexivity | apply Hsome].
    + intros [= <- <- <-]. exists key. split; [reflexivity |].
      intros v t. rewrite Ek. discriminate.
  - intros [= <- <- <-]. exists key. split; [reflexivity | discriminate].
Qed.

Section AllSome.

Variable self : whereKey -> value -> whereOptions -> option string.

Hypothesis self_literal :
  forall baseKey where_,
    self (KLiteral baseKey) (VObj where_) no_whereOptions <> None.

Lemma traverse_some (prefixedKey : string) (item : value) :
  forall path, Forall (fun x => x <> None) (traverse self prefixedKey item path).
Proof.
  induction item as [v Hv | props IH] using value_object_ind; intros path.
  - destruct v; try discriminate; cbn [traverse];
      (constructor; [apply self_literal | constructor]).
  - cbn [traverse]. generalize (@nil (string * value)) as where_.
    induction IH as [|[prop item] rest Hitem _ IHrest]; intros where_;
      [constructor |].
    destruct (startsWith "$" prop).
    + constructor; [apply self_literal | apply IHrest].
    + apply Forall_app. split; [apply Hitem | apply IHrest].
Qed.

Lemma top_items_some (key : whereKey) (options : whereOptions)
    (prefixedKey : string) (props : list (string * value)) :
  (forall v, self key v (with_json_false options) <> None) ->
  Forall (fun x => x <> None) (top_items self key options prefixedKey props).
Proof.
  intros Hself. induction props as [|[prop item] rest IH]; [constructor |].
  cbn [top_items]. apply Forall_app. split; [|exact IH].
  destruct (startsWith "$" prop).
  - constructor; [apply Hself | constructor].
  - apply traverse_some.
Qed.

Lemma all_fragments_some (items : list (option string)) :
  Forall (fun x => x <> None) items -> all_fragments items <> None.
Proof.
  induction 1 as [|[x|] items Hx _ IH]; cbn [all_fragments];
    [discriminate | | contradiction].
  destruct (all_fragments items); [discriminate | contradiction].
Qed.

End AllSome.

Lemma whereItemQuery_body_json_false_some self (name : string) (val : value)
    (options : whereOptions) :
  o_json options = VBool false ->
  rewrite_dotted C (KStr name) val
    (resolve_type (resolve_field C (KStr name) options) options) options
    <> None ->
  whereItemQuery_body C self (KStr name) val options <> None.
Proof.
  intros Hjson Hrw. unfold whereItemQuery_body.
  destruct (rewrite_dotted _ _ _ _ _) as [[[k v] t]|] eqn:E; [|contradiction].
  apply rewrite_dotted_key in E as (name' & -> & _).
  destruct v; try discriminate.
  destruct (instanceof_JSON t); [|discriminate].
  rewrite Hjson. destruct (truthy _); discriminate.
Qed.

(** X16: with a column name for key, [whereItemQuery] raises in one case only: the
    key has a dot and [options.model] has no [rawAttributes], which the
    source reads without the guard that it has on its first line.  In every
    other case a fragment is returned. *)
Theorem whereItemQuery_raises_iff (key : string) (val : value)
    (options : whereOptions) :
  whereItemQuery C (KStr key) val options = None <->
  dotted_without_rawAttributes key options.
Proof.
  rewrite <- (rewrite_dotted_raises key val
                (resolve_type (resolve_field C (KStr key) options) options)).
  unfold whereItemQuery. unfold whereItemQuery_body at 1.
  destruct (rewrite_dotted _ _ _ _ _) as [[[k v] t]|] eqn:E;
    [|split; reflexivity].
  split; [|discriminate]. intros H. exfalso. revert H.
  apply rewrite_dotted_key in E as (name & -> & Hname).
  destruct v; try discriminate.
  destruct (instanceof_JSON t); [|discriminate].
  destruct (o_json options) as [| |[]| | | |];
    try (destruct (truthy _); discriminate);
    (destruct (all_fragments _) eqn:Ea; [discriminate |]; intros _;
     revert Ea; apply all_fragments_some, top_items_some;
     [ intros baseKey where_; rewrite whereItemQuery_body_literal; discriminate
     | intros v0; apply whereItemQuery_body_json_false_some;
       [reflexivity | apply Hname] ]).
Qed.

(** *** Dotted keys *)

Lemma hd_split_char (c : ascii) (s : string) :
  includes (hd EmptyString (split_char c s)) (String c EmptyString) = false.
Proof.
  induction s as [|a t IH]; [reflexivity |].
  cbn [split_char]. destruct (Ascii.eqb_spec a c) as [->|Hne]; [reflexivity |].
  assert (Hhd : hd EmptyString
                  match split_char c t with
                  | [] => [String a EmptyString]
                  | h :: r => String a h :: r
                  end = String a (hd EmptyString (split_char c t))).
  { destruct t as [|b t]; [reflexivity |]. cbn [split_char].
    destruct (Ascii.eqb b c); [reflexivity |].
    now destruct (split_char c t). }
  rewrite Hhd. cbn [includes startsWith].
  destruct (Ascii.eqb_spec c a) as [->|_]; [contradiction |].
  exact IH.
Qed.

(** X17: a dotted key on an attribute of JSON type is the condition on the
    attribute itself with the nested object that [Dottie.set] builds from
    the rest of the key. *)
Theorem whereItemQuery_dotted_key (key : string) (val : value)
    (options : whereOptions) (m : model)
    (attrs : list (string * rawAttribute)) (f : rawAttribute) :
  includes key "." = true ->
  o_field options = None -> o_type options = None ->
  o_model options = Some m -> rawAttributes m = Some attrs ->
  obj_get attrs (hd EmptyString (split_char "." key)) = Some f ->
  instanceof_JSON (ra_type f) = true ->
  some_truthy (ra_field f) = None ->
  whereItemQuery C (KStr key) val options =
  whereItemQuery C (KStr (hd EmptyString (split_char "." key)))
    (dottie_set C (VObj []) (tl (split_char "." key)) val) options.
Proof.
  intros Hdot Hfield Htype Hmodel Hraw Hattr Hjson Hname.
  unfold whereItemQuery.
  set (self := whereItemQuery_body C (fun _ _ _ => None)).
  unfold whereItemQuery_body.
  rewrite (rewrite_dotted_plain C (hd EmptyString (split_char "." key)))
    by (left; apply (hd_split_char "." key)).
  unfold rewrite_dotted. rewrite Hmodel, Hdot, Hraw, Hattr, Hjson, Hname.
  unfold resolve_type, resolve_field, lookup_attribute.
  rewrite Hfield, Htype, Hmodel, Hraw. cbn [key_propertyName].
  rewrite Hattr. reflexivity.
Qed.

(** *** Operator keys at the top of the condition *)

Lemma json_typed_with_json_false (key : string) (options : whereOptions) :
  json_typed C key options -> json_typed C key (with_json_false options).
Proof. intros H. exact H. Qed.

Lemma top_items_operators (self : whereKey -> value -> whereOptions -> option string)
    (key : string) (options : whereOptions) (prefixedKey : string)
    (props : list (string * value)) :
  plain_column key options -> json_typed C key options ->
  Forall (fun kv => startsWith "$" kv.1 = true) props ->
  top_items (whereItemQuery_body C self) (KStr key) options prefixedKey props =
    map (fun kv => Some (operator_fragment C key options kv)) props.
Proof.
  intros Hplain Hjson. induction 1 as [|[prop item] rest Hprop _ IH];
    [reflexivity |].
  cbn [fst] in Hprop. cbn [top_items map]. rewrite Hprop, IH. cbn [app].
  rewrite whereItemQuery_body_json
    by (assumption || now apply json_typed_with_json_false).
  cbn zeta. cbn [with_json_false o_json]. unfold operator_fragment.
  now destruct (truthy _).
Qed.

(** X18: let the key name the column (it has no dot, or no [options.model]
    is given), let the type resolved for it be JSON and [options.json] not
    be [false].  Operator keys at the top of the condition then do not
    accumulate: each one is compiled on its own, with [json: false], so
    [$contains] becomes a [JSON_CONTAINS] call and every other operator goes
    to the abstract predicate compiler with the column for key. *)
Theorem whereItemQuery_top_level_operators (key : string)
    (props : list (string * value)) (options : whereOptions) :
  plain_column key options -> json_typed C key options ->
  o_json options <> VBool false ->
  Forall (fun kv => startsWith "$" kv.1 = true) props ->
  whereItemQuery C (KStr key) (VObj props) options =
    Some (join_items (map (operator_fragment C key options) props)).
Proof.
  intros Hplain Hjson Hnot Hops. unfold whereItemQuery.
  rewrite whereItemQuery_body_json by assumption. cbn zeta.
  rewrite top_items_operators by assumption.
  rewrite all_fragments_map.
  destruct (o_json options) as [| |[]| | | |]; try reflexivity.
  now contradiction Hnot.
Qed.

End WhereItemQueryMore.

(** ** handleSequelizeMethod and the foreign key queries *)

Section Introspected.

Variable C : Collaborators.

Variable parseConditionObject : value -> list ((string * list string) * value).

Import JsString.

Lemma startsWith_shorter (p q s : string) :
  startsWith (p +:+ q) s = true -> startsWith p s = true.
Proof.
  revert s. induction p as [|x p IH]; intros s; [reflexivity |].
  destruct s as [|y s]; [discriminate |]. cbn [String.append startsWith].
  destruct (Ascii.eqb x y); [apply IH | discriminate].
Qed.

Lemma includes_shorter (s p q : string) :
  includes s p = false -> includes s (p +:+ q) = false.
Proof.
  induction s as [|c s IH]; cbn [includes]; intros H;
    apply orb_false_iff in H as [Hhere Hrest];
    apply orb_false_iff; (split; [|auto]);
    (destruct (startsWith (p +:+ q) _) eqn:E; [|reflexivity]);
    apply startsWith_shorter in E; congruence.
Qed.

Lemma split_char_append (c : ascii) (x rest : string) :
  includes x (String c EmptyString) = false ->
  split_char c (x +:+ String c rest) = x :: split_char c rest.
Proof.
  induction x as [|a x IH]; intros H.
  - cbn [String.append split_char]. now rewrite Ascii.eqb_refl.
  - cbn [includes startsWith] in H. apply orb_false_iff in H as [Ha Hx].
    cbn [String.append split_char]. rewrite (IH Hx).
    destruct (Ascii.eqb_spec a c) as [->|_]; [|reflexivity].
    now rewrite Ascii.eqb_refl in Ha.
Qed.

Lemma split_char_clean (c : ascii) (x : string) :
  includes x (String c EmptyString) = false -> split_char c x = [x].
Proof.
  induction x as [|a x IH]; intros H; [reflexivity |].
  cbn [includes startsWith] in H. apply orb_false_iff in H as [Ha Hx].
  cbn [split_char]. rewrite (IH Hx).
  destruct (Ascii.eqb_spec a c) as [->|_]; [|reflexivity].
  now rewrite Ascii.eqb_refl in Ha.
Qed.

(** Splitting at a character undoes joining with it, for parts that do not
    hold the character. *)
Lemma split_char_join (c : ascii) (first : string) (others : list string) :
  Forall (fun part => includes part (String c EmptyString) = false)
         (first :: others) ->
  split_char c (join (String c EmptyString) (first :: others)) =
    first :: others.
Proof.
  revert first. induction others as [|second others IH]; intros first H.
  - apply split_char_clean. now inversion H.
  - apply Forall_cons in H as [Hfirst Hothers].
    change (join (String c EmptyString) (first :: second :: others))
      with (first +:+ String c EmptyString +:+
            join (String c EmptyString) (second :: others)).
    change (String c EmptyString +:+
            join (String c EmptyString) (second :: others))
      with (String c (join (String c EmptyString) (second :: others))).
    rewrite split_char_append by assumption. now rewrite IH.
Qed.

(** X19: A [Utils.Json] with a path in dot notation, [column.s1.s2...], and no
    conditions: the column is quoted and the segments after it are joined
    with a comma, not with a dot, inside the extraction; a truthy value adds
    the comparison with the escaped value. *)
Theorem handleSequelizeMethod_dot_path (j : jsonMethod) (column : string)
    (segments : list string) :
  j_conditions j = None ->
  j_path j = Some (join "." (column :: segments)) ->
  column <> "" ->
  Forall (fun part => includes part "." = false) (column :: segments) ->
  includes (join "." (column :: segments)) "->" = false ->
  handleSequelizeMethod_full C parseConditionObject (Json j) =
    Some (quoteIdentifier C column +:+ "->>'$." +:+ join "," segments +:+ "'"
          +:+ (if truthy (j_value j) then " = " +:+ escape C (j_value j)
               else "")).
Proof.
  intros Hcond Hpath Hcolumn Hparts Harrow.
  unfold handleSequelizeMethod_full. rewrite Hcond, Hpath.
  assert (Hne : is_empty (join "." (column :: segments)) = false).
  { destruct column as [|a column]; [contradiction |].
    now destruct segments. }
  unfold some_truthy. rewrite Hne. unfold json_path_text.
  rewrite Harrow. change "->>" with ("->" +:+ ">").
  rewrite (includes_shorter _ "->" ">" Harrow). cbn [orb].
  rewrite (split_char_join "." column segments Hparts). cbn [hd tl].
  now rewrite !append_assoc.
Qed.

(** X20: for a table given with its schema, [getForeignKeyQuery] joins schema
    and table name with a dot before it quotes them: the object
    [{schema, tableName}] gives the statement of the one string
    [schema.tableName], and without a schema that of the table name. *)
Theorem getForeignKeyQuery_schema (schema name columnName : string) :
  name <> "" ->
  getForeignKeyQuery C (TSchema schema name) columnName =
  getForeignKeyQuery C
    (TName (if is_empty schema then name else schema +:+ "." +:+ name))
    columnName.
Proof.
  intros Hname. unfold getForeignKeyQuery, qualified_name.
  rewrite (is_empty_false name Hname). now destruct (is_empty schema).
Qed.

End Introspected.

(** ** The theorems at examples *)

Import JsString.

Lemma createTableQuery_without_references_example :
  createTableQuery Reference.collaborators (TName "users")
    [("id", "INTEGER PRIMARY KEY"); ("name", "VARCHAR(255)")]
    no_createTableOptions =
    Some ("CREATE TABLE IF NOT EXISTS `users` " +:+
          "(`id` INTEGER , `name` VARCHAR(255), PRIMARY KEY (`id`)) " +:+
          "ENGINE=InnoDB;").
Proof.
  apply (createTableQuery_without_references Reference.collaborators
           (TName "users")
           [("id", "INTEGER PRIMARY KEY"); ("name", "VARCHAR(255)")]
           no_createTableOptions).
  - cbn. rewrite !not_elem_of_cons. repeat split; try discriminate.
    apply not_elem_of_nil.
  - repeat constructor.
Defined.

Lemma createTableQuery_references_recompose_example :
  exists m1 m2,
    "INTEGER REFERENCES users (id)" = m1 +:+ " " +:+ m2 /\
    m1 <> "" /\
    startsWith "REFERENCES" m2 = true /\
    includes m2 " REFERENCES" = false /\
    "CREATE TABLE IF NOT EXISTS `posts` (`owner` INTEGER, FOREIGN KEY (`owner`) REFERENCES users (id)) ENGINE=InnoDB;" =
      trim ("CREATE TABLE IF NOT EXISTS " +:+
            quoteTable Reference.collaborators (TName "posts") +:+
            " (" +:+ quoteIdentifier Reference.collaborators "owner" +:+
            " " +:+ m1 +:+
            unique_clauses Reference.collaborators (TName "posts")
              (ct_uniqueKeys no_createTableOptions) +:+
            ", FOREIGN KEY (" +:+
            quoteIdentifier Reference.collaborators "owner" +:+ ") " +:+
            m2 +:+ ")" +:+
            table_suffix Reference.collaborators no_createTableOptions) +:+
      ";".
Proof.
  apply (createTableQuery_references_recompose Reference.collaborators
           (TName "posts") "owner" "INTEGER REFERENCES users (id)"
           "CREATE TABLE IF NOT EXISTS `posts` (`owner` INTEGER, FOREIGN KEY (`owner`) REFERENCES users (id)) ENGINE=InnoDB;"
           no_createTableOptions); [discriminate | reflexivity ..].
Defined.

Lemma createTableQuery_single_field_unique_keys_example :
  createTableQuery Reference.collaborators (TName "users")
    [("email", "VARCHAR(255) UNIQUE")]
    (with_uniqueKeys no_createTableOptions
       (Some [(Some "users_email",
               {| uk_singleField := true; uk_fields := ["email"] |})])) =
  createTableQuery Reference.collaborators (TName "users")
    [("email", "VARCHAR(255) UNIQUE")]
    (with_uniqueKeys no_createTableOptions None).
Proof.
  apply (createTableQuery_single_field_unique_keys Reference.collaborators
           (TName "users") [("email", "VARCHAR(255) UNIQUE")]
           no_createTableOptions
           [(Some "users_email",
             {| uk_singleField := true; uk_fields := ["email"] |})]).
  repeat constructor.
Defined.

Lemma changeColumnQuery_first_references_example :
  changeColumnQuery Reference.collaborators (TName "posts")
    [("owner", "INTEGER " +:+ "REFERENCES" +:+ " `my REFERENCES` (id)")] =
    "ALTER TABLE " +:+ quoteTable Reference.collaborators (TName "posts") +:+
    " ADD CONSTRAINT " +:+
    quoteIdentifier Reference.collaborators ("owner" +:+ "_foreign_idx") +:+
    " FOREIGN KEY (" +:+ quoteIdentifier Reference.collaborators "owner" +:+
    ") REFERENCES" +:+ " `my REFERENCES` (id)" +:+ ";".
Proof.
  apply (changeColumnQuery_first_references Reference.collaborators
           (TName "posts") "owner" "INTEGER " " `my REFERENCES` (id)");
    [discriminate | reflexivity | reflexivity].
Defined.

Lemma renameColumnQuery_same_name_example :
  renameColumnQuery Reference.collaborators (TName "users") "name"
    [("name", "VARCHAR(255)")] =
  changeColumnQuery Reference.collaborators (TName "users")
    [("name", "VARCHAR(255)")].
Proof.
  apply (renameColumnQuery_same_name Reference.collaborators (TName "users")
           "name" "VARCHAR(255)").
  reflexivity.
Defined.

Lemma addColumnQuery_names_the_constraint_example :
  exists base refs,
    startsWith " REFERENCES " refs = true /\
    attributeToSQL Reference.collaborators (PlainAttribute owner_attribute)
      None = Some (base +:+ refs) /\
    addColumnQuery Reference.collaborators (TName "posts") "owner"
      (PlainAttribute owner_attribute) =
      Some ("ALTER TABLE " +:+
            quoteTable Reference.collaborators (TName "posts") +:+ " ADD " +:+
            quoteIdentifier Reference.collaborators "owner" +:+ " " +:+
            base +:+ ", ADD CONSTRAINT " +:+
            quoteIdentifier Reference.collaborators
              ("owner" +:+ "_foreign_idx") +:+
            " FOREIGN KEY (" +:+
            quoteIdentifier Reference.collaborators "owner" +:+ ")" +:+
            refs +:+ ";").
Proof.
  apply (addColumnQuery_names_the_constraint Reference.collaborators
           (TName "posts") "owner" (PlainAttribute owner_attribute)
           {| ref_model := TName "users"; ref_key := None |}).
  - discriminate.
  - eexists. reflexivity.
  - reflexivity.
Defined.

Lemma attributesToSQL_distinct_names_example :
  attributesToSQL Reference.collaborators
    [("id", id_attribute);
     ("name", with_field (RawType "VARCHAR(255)") "user_name")] None [] =
    Some [("id", "INTEGER auto_increment PRIMARY KEY");
          ("user_name", "VARCHAR(255)")].
Proof.
  apply (attributesToSQL_distinct_names Reference.collaborators
           [("id", id_attribute);
            ("name", with_field (RawType "VARCHAR(255)") "user_name")] None).
  - apply NoDup_cons. split; [|apply NoDup_singleton].
    intros H. apply list_elem_of_singleton in H. discriminate.
  - repeat constructor.
Defined.

Lemma attributesToSQL_last_wins_example :
  exists entries,
    rendered_entries Reference.collaborators
      [("name", with_default (RawType "VARCHAR(255)") VUndefined);
       ("alias", with_field (RawType "TEXT") "name")] None = Some entries /\
    forall name,
      obj_get [("name", "TEXT")] name =
        if String.eqb name "__proto__" then None
        else last_entry entries name.
Proof.
  apply (attributesToSQL_last_wins Reference.collaborators
           [("name", with_default (RawType "VARCHAR(255)") VUndefined);
            ("alias", with_field (RawType "TEXT") "name")] None
           [("name", "TEXT")]).
  reflexivity.
Defined.

Lemma findAutoIncrementField_rendered_example :
  exists definition,
    ("id", Some definition) ∈
      [("id", Some id_attribute);
       ("name", Some (with_default (RawType "TEXT") VUndefined));
       ("gone", None)] /\
    forall options sql,
      attributeToSQL Reference.collaborators (PlainAttribute definition)
        options = Some sql ->
      includes sql " auto_increment" = true.
Proof.
  apply (findAutoIncrementField_rendered Reference.collaborators
           [("id", Some id_attribute);
            ("name", Some (with_default (RawType "TEXT") VUndefined));
            ("gone", None)] ["id"] "id").
  - reflexivity.
  - left.
Defined.

Lemma whereItemQuery_delegates_example :
  whereItemQuery Reference.collaborators (KStr "name") (VStr "x") json_column =
    Some "`name` = 'x'".
Proof.
  apply (whereItemQuery_delegates Reference.collaborators "name" (VStr "x")
           json_column).
  - right. reflexivity.
  - left. reflexivity.
Defined.

Lemma whereItemQuery_dotted_key_example :
  whereItemQuery Reference.collaborators (KStr "data.a.b") (VNum 1)
    json_model_options =
  whereItemQuery Reference.collaborators (KStr "data")
    (VObj [("a", VObj [("b", VNum 1)])]) json_model_options.
Proof.
  apply (whereItemQuery_dotted_key Reference.collaborators "data.a.b" (VNum 1)
           json_model_options
           {| rawAttributes :=
                Some [("data", {| ra_type := Some JSON_TYPE;
                                  ra_field := None |})];
              fieldRawAttributesMap := None |}
           [("data", {| ra_type := Some JSON_TYPE; ra_field := None |})]
           {| ra_type := Some JSON_TYPE; ra_field := None |});
    reflexivity.
Defined.

Lemma whereItemQuery_top_level_operators_example :
  whereItemQuery Reference.collaborators (KStr "data")
    (VObj [("$contains", VNum 1); ("$gt", VNum 0)]) json_column =
    Some "(JSON_CONTAINS(`data`, '1') AND `data` > 0)".
Proof.
  apply (whereItemQuery_top_level_operators Reference.collaborators "data"
           [("$contains", VNum 1); ("$gt", VNum 0)] json_column).
  - right. reflexivity.
  - reflexivity.
  - discriminate.
  - repeat constructor.
Defined.

Lemma handleSequelizeMethod_dot_path_example :
  handleSequelizeMethod_full Reference.collaborators (fun _ => [])
    (Json path_method) = Some "`data`->>'$.a,b' = 1".
Proof.
  apply (handleSequelizeMethod_dot_path Reference.collaborators (fun _ => [])
           path_method "data" ["a"; "b"]).
  - reflexivity.
  - reflexivity.
  - discriminate.
  - repeat constructor.
  - reflexivity.
Defined.

Lemma getForeignKeyQuery_schema_example :
  getForeignKeyQuery Reference.collaborators (TSchema "app" "users") "id" =
  getForeignKeyQuery Reference.collaborators (TName "app.users") "id".
Proof.
  apply (getForeignKeyQuery_schema Reference.collaborators "app" "users" "id").
  discriminate.
Defined.

(** ** Names and numbers that JavaScript treats apart *)

(** A column named [hasOwnProperty] hides the method that the loop of
    [createTableQuery] calls: the call raises. *)
Example createTableQuery_hasOwnProperty_column :
  createTableQuery Reference.collaborators (TName "t")
    [("hasOwnProperty", "INTEGER")] no_createTableOptions = None.
Proof. reflexivity. Qed.

(** The foreign key of a column named [__proto__] is not stored, and the
    statement has no FOREIGN KEY clause. *)
Example createTableQuery_proto_column :
  createTableQuery Reference.collaborators (TName "t")
    [("__proto__", "INTEGER REFERENCES users (id)")] no_createTableOptions =
    Some "CREATE TABLE IF NOT EXISTS `t` (`__proto__` INTEGER) ENGINE=InnoDB;".
Proof. reflexivity. Qed.

(** An initial value of 10^21 is printed in exponent form. *)
Example createTableQuery_large_initialAutoIncrement :
  number_toString (10 ^ 21) = "1e+21" /\
  number_toString (2 ^ 60) = "1152921504606847000" /\
  createTableQuery Reference.collaborators (TName "t") [("id", "INTEGER")]
    {| ct_engine := None; ct_charset := None; ct_comment := VUndefined;
       ct_collate := VUndefined; ct_initialAutoIncrement := VNum (10 ^ 21);
       ct_uniqueKeys := None |} =
    Some "CREATE TABLE IF NOT EXISTS `t` (`id` INTEGER) ENGINE=InnoDB AUTO_INCREMENT=1e+21;".
Proof. repeat split; vm_compute; reflexivity. Qed.

(** In the result of [attributesToSQL] an array index comes first, and
    nothing is stored under [__proto__]. *)
Example attributesToSQL_index_first :
  attributesToSQL Reference.collaborators
    [("a", with_default (RawType "TEXT") VUndefined);
     ("b", with_field (RawType "INTEGER") "1");
     ("c", with_field (RawType "DATE") "__proto__")] None [] =
    Some [("1", "INTEGER"); ("a", "TEXT")].
Proof. reflexivity. Qed.

(** An attribute named [hasOwnProperty] makes [findAutoIncrementField]
    raise. *)
Example findAutoIncrementField_hasOwnProperty :
  findAutoIncrementField [("hasOwnProperty", Some id_attribute)] = None.
Proof. reflexivity. Qed.

(** The key [constructor] finds the member of [Object.prototype] in
    [rawAttributes], so the type given in [fieldRawAttributesMap] is not
    read and the call goes to the abstract predicate compiler. *)
Example whereItemQuery_inherited_member :
  whereItemQuery Reference.collaborators (KStr "constructor")
    (VObj [("a", VNum 1)]) constructor_options =
    Some (Reference.abstract_whereItemQuery (KStr "constructor")
            (VObj [("a", VNum 1)]) constructor_options).
Proof. reflexivity. Qed.
